(** * fiscalyear: fiscal years, fiscal quarters and fiscal dates

    A shallow embedding of [fiscalyear.py].  Python integers are [Z]
    (unbounded), [//] and [%] with a positive divisor are [Z.div] and
    [Z.modulo] (both round towards minus infinity, as Python's do), and a
    call that may raise returns a [result]: either a value or the class of
    the exception raised.

    The module uses two modules of Python's standard library, [datetime] and
    [calendar].  Their parts that the code calls are embedded first, after
    CPython's pure-Python sources ([Lib/_pydatetime.py], [Lib/calendar.py]). *)

From Stdlib Require Import ZArith List String Ascii Bool Lia.
From Stdlib Require Import DecimalString.
Import ListNotations.
Local Open Scope Z_scope.

(** ** Exceptions and results *)

(** The exception classes the code and its library calls can raise.
    [calendar.IllegalMonthError] is a subclass of [ValueError] and is
    counted as one. *)
Inductive PyExc : Set :=
| TypeError
| ValueError
| AttributeError
| AssertionError
| OverflowError.

Inductive result (A : Type) : Type :=
| Ok (a : A)
| Raise (e : PyExc).

Arguments Ok {A} a.
Arguments Raise {A} e.

Definition bind {A B : Type} (c : result A) (k : A -> result B) : result B :=
  match c with
  | Ok a => k a
  | Raise e => Raise e
  end.

Notation "x <- c ;; k" := (bind c (fun x => k))
  (at level 61, c at next level, right associativity).
Notation "c ;;; k" := (bind c (fun _ => k))
  (at level 61, right associativity).

(** [assert b]: nothing when [b] holds, [AssertionError] otherwise. *)
Definition assert (b : bool) : result unit :=
  if b then Ok tt else Raise AssertionError.

Definition raises {A : Type} (c : result A) : Prop :=
  exists e, c = Raise e.

Definition returns {A : Type} (c : result A) : Prop :=
  exists a, c = Ok a.

(** ** The standard library's [datetime] *)

Module datetime.

Definition MINYEAR : Z := 1.
Definition MAXYEAR : Z := 9999.
(** [date.max.toordinal()] *)
Definition _MAXORDINAL : Z := 3652059.

(** Indexed by month, from 1; the entry at 0 is a placeholder. *)
Definition _DAYS_IN_MONTH : list Z :=
  [-1; 31; 28; 31; 30; 31; 30; 31; 31; 30; 31; 30; 31].

Definition _DAYS_BEFORE_MONTH : list Z :=
  [-1; 0; 31; 59; 90; 120; 151; 181; 212; 243; 273; 304; 334].

(** [l[i]] for an index the callers keep within [1..12]. *)
Definition index (l : list Z) (i : Z) : Z := nth (Z.to_nat i) l 0.

Definition _is_leap (year : Z) : bool :=
  (year mod 4 =? 0) && (negb (year mod 100 =? 0) || (year mod 400 =? 0)).

Definition _days_before_year (year : Z) : Z :=
  let y := year - 1 in
  y * 365 + y / 4 - y / 100 + y / 400.

Definition _days_in_month (year month : Z) : Z :=
  if (month =? 2) && _is_leap year then 29
  else index _DAYS_IN_MONTH month.

Definition _days_before_month (year month : Z) : Z :=
  index _DAYS_BEFORE_MONTH month + Z.b2z ((month >? 2) && _is_leap year).

Definition _ymd2ord (year month day : Z) : Z :=
  _days_before_year year + _days_before_month year month + day.

Definition _DI400Y : Z := _days_before_year 401.
Definition _DI100Y : Z := _days_before_year 101.
Definition _DI4Y : Z := _days_before_year 5.

(** Ordinal to (year, month, day), 0001-01-01 being day 1. *)
Definition _ord2ymd (n : Z) : Z * Z * Z :=
  let n := n - 1 in
  let n400 := n / _DI400Y in
  let n := n mod _DI400Y in
  let year := n400 * 400 + 1 in
  let n100 := n / _DI100Y in
  let n := n mod _DI100Y in
  let n4 := n / _DI4Y in
  let n := n mod _DI4Y in
  let n1 := n / 365 in
  let n := n mod 365 in
  let year := year + n100 * 100 + n4 * 4 + n1 in
  if (n1 =? 4) || (n100 =? 4) then (year - 1, 12, 31)
  else
    let leapyear := (n1 =? 3) && (negb (n4 =? 24) || (n100 =? 3)) in
    let month := Z.shiftr (n + 50) 5 in
    let preceding :=
      index _DAYS_BEFORE_MONTH month + Z.b2z ((month >? 2) && leapyear) in
    if preceding >? n then
      let month := month - 1 in
      let preceding :=
        preceding
        - (index _DAYS_IN_MONTH month + Z.b2z ((month =? 2) && leapyear)) in
      (year, month, n - preceding + 1)
    else (year, month, n - preceding + 1).

(** A [datetime.date] object.  [FiscalDate] subclasses it and adds no
    field. *)
Record date : Set := mkdate { year : Z; month : Z; day : Z }.

Definition _check_date_fields (year month day : Z) : result unit :=
  if negb ((MINYEAR <=? year) && (year <=? MAXYEAR)) then Raise ValueError
  else if negb ((1 <=? month) && (month <=? 12)) then Raise ValueError
  else if negb ((1 <=? day) && (day <=? _days_in_month year month))
  then Raise ValueError
  else Ok tt.

(** The constructor [date(year, month, day)]. *)
Definition date_new (year month day : Z) : result date :=
  _check_date_fields year month day ;;;
  Ok (mkdate year month day).

(** The dates the constructor builds. *)
Definition valid (d : date) : Prop :=
  _check_date_fields (year d) (month d) (day d) = Ok tt.

Definition toordinal (d : date) : Z := _ymd2ord (year d) (month d) (day d).

Definition fromordinal (n : Z) : date :=
  let '(y, m, d) := _ord2ymd n in mkdate y m d.

(** Monday is 0. *)
Definition weekday (d : date) : Z := (toordinal d + 6) mod 7.

(** [d + timedelta(days=n)]; [d - timedelta(days=n)] is
    [d + timedelta(days=-n)]. *)
Definition add_days (d : date) (n : Z) : result date :=
  let o := toordinal d + n in
  if (0 <? o) && (o <=? _MAXORDINAL) then Ok (fromordinal o)
  else Raise OverflowError.

(** [d1 == d2] on two dates. *)
Definition date_eqb (d1 d2 : date) : bool :=
  (year d1 =? year d2) && (month d1 =? month d2) && (day d1 =? day d2).

(** A naive [datetime.datetime] object, to the second. *)
Record datetime : Set :=
  mkdatetime { dt_date : date; hour : Z; minute : Z; second : Z }.

Definition _check_time_fields (hour minute second : Z) : result unit :=
  if negb ((0 <=? hour) && (hour <=? 23)) then Raise ValueError
  else if negb ((0 <=? minute) && (minute <=? 59)) then Raise ValueError
  else if negb ((0 <=? second) && (second <=? 59)) then Raise ValueError
  else Ok tt.

(** The constructor [datetime(year, month, day, hour, minute, second)]. *)
Definition datetime_new (year month day hour minute second : Z)
  : result datetime :=
  _check_date_fields year month day ;;;
  _check_time_fields hour minute second ;;;
  Ok (mkdatetime (mkdate year month day) hour minute second).

(** The method [datetime.date()]. *)
Definition date_of (dt : datetime) : date := dt_date dt.

End datetime.

(** ** The standard library's [calendar] *)

Module calendar.

Definition February : Z := 2.

Definition mdays : list Z :=
  [0; 31; 28; 31; 30; 31; 30; 31; 31; 30; 31; 30; 31].

Definition isleap (year : Z) : bool :=
  (year mod 4 =? 0) && (negb (year mod 100 =? 0) || (year mod 400 =? 0)).

(** A year outside [datetime]'s range is mapped into it, 400 years being
    a whole number of weeks.  (Before Python 3.8 such a year raised
    [ValueError] here; [FiscalQuarter.end] raises [ValueError] on it either
    way, at the latest from the constructor of [datetime].) *)
Definition weekday (year month day : Z) : result Z :=
  let year :=
    if negb ((datetime.MINYEAR <=? year) && (year <=? datetime.MAXYEAR))
    then 2000 + year mod 400 else year in
  d <- datetime.date_new year month day ;;
  Ok (datetime.weekday d).

(** [monthrange(year, month)]: weekday of the first day of the month and
    number of days in the month. *)
Definition monthrange (year month : Z) : result (Z * Z) :=
  if negb ((1 <=? month) && (month <=? 12)) then Raise ValueError
  else
    day1 <- weekday year month 1 ;;
    let ndays :=
      datetime.index mdays month
      + Z.b2z ((month =? February) && isleap year) in
    Ok (day1, ndays).

End calendar.

(** ** Python values *)

(** A [FiscalYear] object: its one slot. *)
Record FiscalYear : Set := mkFiscalYear { _fiscal_year : Z }.

(** A [FiscalQuarter] object: its two private attributes. *)
Record FiscalQuarter : Set :=
  mkFiscalQuarter { __fiscal_year : Z; __quarter : Z }.

(** The values a caller can pass where the code tests the type of its
    argument: an [int] (a [bool] is one, and stands as its integer 0 or 1),
    a [str] (an instance of [str] itself, with the methods of [str]), a
    [FiscalYear], or an object of a class that derives from neither [int]
    nor [str], of which only the name of the class matters.  Instances of
    classes that a caller derives from [int] or [str] and gives methods of
    their own are not among these values. *)
Inductive PyValue : Set :=
| PyInt (n : Z)
| PyStr (s : string)
| PyFiscalYear (fy : FiscalYear)
| PyOther (type_name : string).

(** What a rich comparison method returns: a [bool] or the
    [NotImplemented] singleton. *)
Inductive PyCmp : Set :=
| PyBool (b : bool)
| NotImplemented.

(** *** Strings *)

(** The names of the attributes of a [str] that are not double-underscore
    names. *)
Definition str_attributes : list string :=
  [ "capitalize"; "casefold"; "center"; "count"; "encode"; "endswith";
    "expandtabs"; "find"; "format"; "format_map"; "index"; "isalnum";
    "isalpha"; "isascii"; "isdecimal"; "isdigit"; "isidentifier";
    "islower"; "isnumeric"; "isprintable"; "isspace"; "istitle"; "isupper";
    "join"; "ljust"; "lower"; "lstrip"; "maketrans"; "partition";
    "removeprefix"; "removesuffix"; "replace"; "rfind"; "rindex"; "rjust";
    "rpartition"; "rsplit"; "rstrip"; "split"; "splitlines"; "startswith";
    "strip"; "swapcase"; "title"; "translate"; "upper"; "zfill" ]%string.

Definition is_decimal_digit (c : ascii) : bool :=
  let n := Z.of_nat (nat_of_ascii c) in (48 <=? n) && (n <=? 57).

Fixpoint all_digits (s : string) : bool :=
  match s with
  | EmptyString => true
  | String c rest => is_decimal_digit c && all_digits rest
  end.

(** [s.isdigit()]: at least one character, all of them digits. *)
Definition isdigit (s : string) : bool :=
  match s with
  | EmptyString => false
  | _ => all_digits s
  end.

Definition isascii (s : string) : bool :=
  forallb (fun c => Z.of_nat (nat_of_ascii c) <? 128) (list_ascii_of_string s).

(** The methods of [str] that take no argument and return a [bool], as far
    as they are embedded here. *)
Definition str_predicate (name : string) : option (string -> bool) :=
  if (name =? "isdigit")%string then Some isdigit
  else if (name =? "isdecimal")%string then Some isdigit
  else if (name =? "isascii")%string then Some isascii
  else None.

(** [value.name()] for a string [value]: the attribute is looked up first,
    and a name that [str] does not have raises [AttributeError].  The
    methods outside [str_predicate] want arguments, and a call without any
    raises [TypeError]; the source calls none of them. *)
Definition call_str_predicate (name : string) (value : string) : result bool :=
  if negb (existsb (String.eqb name) str_attributes) then Raise AttributeError
  else
    match str_predicate name with
    | Some p => Ok (p value)
    | None => Raise TypeError
    end.

(** [int(s)] for a string of decimal digits. *)
Definition int_of_digits (s : string) : Z :=
  fold_left (fun acc c => 10 * acc + (Z.of_nat (nat_of_ascii c) - 48))
            (list_ascii_of_string s) 0.

(** ["%d" % n]: the decimal numeral of [n], with a minus sign when [n] is
    negative. *)
Definition format_d (n : Z) : string := NilZero.string_of_int (Z.to_int n).

(** ** Module constants *)

Definition START_DAY : Z := 1.
Definition START_MONTH : Z := 10.

Definition MONTHS_PER_QUARTER : Z := 12 / 4.

Definition MIN_QUARTER : Z := 1.
Definition MAX_QUARTER : Z := 4.

(** ** Validation *)

(** The first test accepts every [int].  The second tests for a [str] and
    then calls the method [is_digit] on it, as the source spells it. *)
Definition _check_int (value : PyValue) : result Z :=
  match value with
  | PyInt n => Ok n
  | PyStr s =>
      digits <- call_str_predicate "is_digit" s ;;
      if digits then Ok (int_of_digits s) else Raise TypeError
  | _ => Raise TypeError
  end.

Definition _check_year (year : PyValue) : result Z :=
  year <- _check_int year ;;
  if (datetime.MINYEAR <=? year) && (year <=? datetime.MAXYEAR) then Ok year
  else Raise ValueError.

Definition _check_quarter (quarter : PyValue) : result Z :=
  quarter <- _check_int quarter ;;
  if (MIN_QUARTER <=? quarter) && (quarter <=? MAX_QUARTER) then Ok quarter
  else Raise ValueError.

(** ** [FiscalQuarter] *)

Module FiscalQuarter.

Definition isinstance_int (v : PyValue) : bool :=
  match v with PyInt _ => true | _ => false end.

(** The constructor: four assertions, then the two attributes. *)
Definition __init__ (fiscal_year quarter : PyValue) : result FiscalQuarter :=
  assert (isinstance_int fiscal_year) ;;;
  assert (isinstance_int quarter) ;;;
  match fiscal_year, quarter with
  | PyInt fiscal_year, PyInt quarter =>
      assert ((datetime.MINYEAR <=? fiscal_year)
              && (fiscal_year <=? datetime.MAXYEAR)) ;;;
      assert ((1 <=? quarter) && (quarter <=? 4)) ;;;
      Ok (mkFiscalQuarter fiscal_year quarter)
  | _, _ => Raise AssertionError
  end.

Definition fiscal_year (self : FiscalQuarter) : Z := __fiscal_year self.

Definition quarter (self : FiscalQuarter) : Z := __quarter self.

Definition start (self : FiscalQuarter) : result datetime.datetime :=
  (* Find the first month of the fiscal quarter *)
  let month := START_MONTH in
  let month := month + (quarter self - 1) * MONTHS_PER_QUARTER in
  let month := month mod 12 in
  let month := if month =? 0 then 12 else month in
  (* Find the calendar year of the start of the fiscal quarter *)
  let year := fiscal_year self in
  let year := if month >=? START_MONTH then year - 1 else year in
  datetime.datetime_new year month START_DAY 0 0 0.

Definition end_ (self : FiscalQuarter) : result datetime.datetime :=
  (* Find the last month of the fiscal quarter *)
  let month := START_MONTH in
  let month := month + (quarter self * MONTHS_PER_QUARTER - 1) in
  let month := month mod 12 in
  let month := if month =? 0 then 12 else month in
  (* Find the calendar year of the end of the fiscal quarter *)
  let year := fiscal_year self in
  let year := if month >=? START_MONTH then year - 1 else year in
  (* Find the last day of the last month of the fiscal quarter *)
  range <- calendar.monthrange year month ;;
  let day := snd range in
  datetime.datetime_new year month day 23 59 59.

End FiscalQuarter.

(** ** [FiscalYear] *)

Module FiscalYear.

Definition __new__ (fiscal_year : PyValue) : result FiscalYear :=
  fiscal_year <- _check_year fiscal_year ;;
  Ok (mkFiscalYear fiscal_year).

(** ["%s.%s(%d)"] filled with the module of the class, the name of the
    class and the fiscal year; the class is in the module [fiscalyear]. *)
Definition __repr__ (self : FiscalYear) : string :=
  ("fiscalyear" ++ "." ++ "FiscalYear" ++ "("
   ++ format_d (_fiscal_year self) ++ ")")%string.

Definition fiscal_year (self : FiscalYear) : Z := _fiscal_year self.

Definition q1 (self : FiscalYear) : result FiscalQuarter :=
  FiscalQuarter.__init__ (PyInt (fiscal_year self)) (PyInt 1).

Definition q2 (self : FiscalYear) : result FiscalQuarter :=
  FiscalQuarter.__init__ (PyInt (fiscal_year self)) (PyInt 2).

Definition q3 (self : FiscalYear) : result FiscalQuarter :=
  FiscalQuarter.__init__ (PyInt (fiscal_year self)) (PyInt 3).

Definition q4 (self : FiscalYear) : result FiscalQuarter :=
  FiscalQuarter.__init__ (PyInt (fiscal_year self)) (PyInt 4).

Definition start (self : FiscalYear) : result datetime.datetime :=
  q <- q1 self ;; FiscalQuarter.start q.

Definition end_ (self : FiscalYear) : result datetime.datetime :=
  q <- q4 self ;; FiscalQuarter.end_ q.

(** The six rich comparisons. *)

Definition __lt__ (self : FiscalYear) (other : PyValue) : result PyCmp :=
  match other with
  | PyFiscalYear other => Ok (PyBool (_fiscal_year self <? _fiscal_year other))
  | _ => Ok NotImplemented
  end.

Definition __le__ (self : FiscalYear) (other : PyValue) : result PyCmp :=
  match other with
  | PyFiscalYear other => Ok (PyBool (_fiscal_year self <=? _fiscal_year other))
  | _ => Ok NotImplemented
  end.

Definition __eq__ (self : FiscalYear) (other : PyValue) : result PyCmp :=
  match other with
  | PyFiscalYear other => Ok (PyBool (_fiscal_year self =? _fiscal_year other))
  | _ => Ok NotImplemented
  end.

Definition __ne__ (self : FiscalYear) (other : PyValue) : result PyCmp :=
  match other with
  | PyFiscalYear other =>
      Ok (PyBool (negb (_fiscal_year self =? _fiscal_year other)))
  | _ => Ok NotImplemented
  end.

Definition __gt__ (self : FiscalYear) (other : PyValue) : result PyCmp :=
  match other with
  | PyFiscalYear other => Ok (PyBool (_fiscal_year self >? _fiscal_year other))
  | _ => Ok NotImplemented
  end.

Definition __ge__ (self : FiscalYear) (other : PyValue) : result PyCmp :=
  match other with
  | PyFiscalYear other => Ok (PyBool (_fiscal_year self >=? _fiscal_year other))
  | _ => Ok NotImplemented
  end.

End FiscalYear.

(** ** [FiscalDate] *)

Module FiscalDate.

Import datetime.

(** A [FiscalDate] is a [date] with more properties and methods. *)
Definition t : Set := date.

Definition fiscal_year (self : t) : Z :=
  let fiscal_year := year self in
  if month self >=? START_MONTH then fiscal_year + 1 else fiscal_year.

Definition quarter (self : t) : Z :=
  let month := month self in
  let month := month - START_MONTH in
  let month := if month <? 0 then month + 12 else month in
  month / MONTHS_PER_QUARTER + 1.

Definition prev_quarter_fiscal_year (self : t) : Z :=
  let fiscal_year := fiscal_year self in
  if quarter self =? 1 then fiscal_year - 1 else fiscal_year.

Definition next_quarter_fiscal_year (self : t) : Z :=
  let fiscal_year := fiscal_year self in
  if quarter self =? 4 then fiscal_year + 1 else fiscal_year.

Definition prev_quarter (self : t) : Z :=
  let quarter := quarter self - 1 in
  if quarter =? 0 then 4 else quarter.

Definition next_quarter (self : t) : Z :=
  let quarter := quarter self + 1 in
  if quarter =? 5 then 1 else quarter.

Definition is_quarter_start (self : t) (quarter : PyValue) : result bool :=
  q <- FiscalQuarter.__init__ (PyInt (fiscal_year self)) quarter ;;
  start <- FiscalQuarter.start q ;;
  Ok (date_eqb self (date_of start)).

Definition is_q1_start (self : t) := is_quarter_start self (PyInt 1).
Definition is_q2_start (self : t) := is_quarter_start self (PyInt 2).
Definition is_q3_start (self : t) := is_quarter_start self (PyInt 3).
Definition is_q4_start (self : t) := is_quarter_start self (PyInt 4).

Definition is_quarter_end (self : t) (quarter : PyValue) : result bool :=
  q <- FiscalQuarter.__init__ (PyInt (fiscal_year self)) quarter ;;
  end_ <- FiscalQuarter.end_ q ;;
  Ok (date_eqb self (date_of end_)).

Definition is_q1_end (self : t) := is_quarter_end self (PyInt 1).
Definition is_q2_end (self : t) := is_quarter_end self (PyInt 2).
Definition is_q3_end (self : t) := is_quarter_end self (PyInt 3).
Definition is_q4_end (self : t) := is_quarter_end self (PyInt 4).

End FiscalDate.

(** ** Notions the properties are stated with *)

(** The inherited constructor [FiscalDate(year, month, day)]. *)
Definition FiscalDate_new (year month day : Z) : result FiscalDate.t :=
  datetime.date_new year month day.

(** A date [d] read again as a [FiscalDate]. *)
Definition as_FiscalDate (d : datetime.date) : result FiscalDate.t :=
  FiscalDate_new (datetime.year d) (datetime.month d) (datetime.day d).

(** [isinstance(v, FiscalYear)] *)
Definition isinstance_FiscalYear (v : PyValue) : bool :=
  match v with PyFiscalYear _ => true | _ => false end.

(** The comparison [c] returns a [bool], which is [True] exactly when [P]
    holds. *)
Definition compares_as (c : result PyCmp) (P : Prop) : Prop :=
  exists r, c = Ok (PyBool r) /\ (r = true <-> P).

(** [FiscalYear(Y).qN] for [N] in 1..4. *)
Definition quarter_of (fy : FiscalYear) (N : Z) : result FiscalQuarter :=
  if N =? 1 then FiscalYear.q1 fy
  else if N =? 2 then FiscalYear.q2 fy
  else if N =? 3 then FiscalYear.q3 fy
  else if N =? 4 then FiscalYear.q4 fy
  else Raise AttributeError.

(** The calendar date of [FiscalYear(Y).qN.start]. *)
Definition start_date (Y N : Z) : result datetime.date :=
  fy <- FiscalYear.__new__ (PyInt Y) ;;
  q <- quarter_of fy N ;;
  s <- FiscalQuarter.start q ;;
  Ok (datetime.date_of s).

(** The calendar date of [FiscalYear(Y).qN.end]. *)
Definition end_date (Y N : Z) : result datetime.date :=
  fy <- FiscalYear.__new__ (PyInt Y) ;;
  q <- quarter_of fy N ;;
  e <- FiscalQuarter.end_ q ;;
  Ok (datetime.date_of e).

(** Quarter [N + 1] of fiscal year [Y] starts on the day after quarter [N]
    ends: both dates exist, and the first plus one day is the second. *)
Definition follows_on (Y N : Z) : Prop :=
  exists e s,
    end_date Y N = Ok e /\ start_date Y (N + 1) = Ok s
    /\ datetime.add_days e 1 = Ok s.

Definition follows_onb (Y N : Z) : bool :=
  match end_date Y N, start_date Y (N + 1) with
  | Ok e, Ok s =>
      match datetime.add_days e 1 with
      | Ok e1 => datetime.date_eqb e1 s
      | Raise _ => false
      end
  | _, _ => false
  end.

(** The date one day before [FiscalQuarter(Y, Q).start], as a
    [FiscalDate]. *)
Definition eve_of_quarter (Y Q : Z) : result FiscalDate.t :=
  q <- FiscalQuarter.__init__ (PyInt Y) (PyInt Q) ;;
  s <- FiscalQuarter.start q ;;
  d <- datetime.add_days (datetime.date_of s) (-1) ;;
  as_FiscalDate d.

(** The eve of quarter [Q] of fiscal year [Y] lies in the quarter before:
    [Q - 1] of the same fiscal year, or quarter 4 of the fiscal year before
    when [Q] is 1. *)
Definition eve_in_previous_quarter (Y Q : Z) : Prop :=
  exists d,
    eve_of_quarter Y Q = Ok d
    /\ FiscalDate.quarter d = (if Q =? 1 then 4 else Q - 1)
    /\ FiscalDate.fiscal_year d = (if Q =? 1 then Y - 1 else Y).

Definition eve_in_previous_quarterb (Y Q : Z) : bool :=
  match eve_of_quarter Y Q with
  | Ok d =>
      (FiscalDate.quarter d =? (if Q =? 1 then 4 else Q - 1))
      && (FiscalDate.fiscal_year d =? (if Q =? 1 then Y - 1 else Y))
  | Raise _ => false
  end.

(** The reverse mapping from a calendar date to its quarter, following the
    words of the specification: the calendar month is shifted back by
    [start_month - 1] positions, 12 is added to a negative result, and the
    quarter is the shifted month [div months_per_quarter], plus 1. *)
Definition spec_quarter (d : datetime.date) : Z :=
  let shifted_month := datetime.month d - (START_MONTH - 1) in
  let shifted_month :=
    if shifted_month <? 0 then shifted_month + 12 else shifted_month in
  shifted_month / MONTHS_PER_QUARTER + 1.

(** The same with the month counted from 0 (January is 0) before it is
    shifted. *)
Definition spec_quarter_from_zero (d : datetime.date) : Z :=
  let shifted_month := (datetime.month d - 1) - (START_MONTH - 1) in
  let shifted_month :=
    if shifted_month <? 0 then shifted_month + 12 else shifted_month in
  shifted_month / MONTHS_PER_QUARTER + 1.

(** [f] holds on [lo], [lo + 1], ..., [lo + n - 1]. *)
Fixpoint forall_from (lo : Z) (n : nat) (f : Z -> bool) : bool :=
  match n with
  | O => true
  | S k => f lo && forall_from (lo + 1) k f
  end.

(** ** Notions for the further properties *)

(** [d1 <= d2] on two dates: the tuples (year, month, day) are compared. *)
Definition date_leb (d1 d2 : datetime.date) : bool :=
  (datetime.year d1 <? datetime.year d2)
  || ((datetime.year d1 =? datetime.year d2)
      && ((datetime.month d1 <? datetime.month d2)
          || ((datetime.month d1 =? datetime.month d2)
              && (datetime.day d1 <=? datetime.day d2)))).

(** [(d2 - d1).days]: the difference of two dates is the difference of
    their ordinals. *)
Definition days_between (d1 d2 : datetime.date) : Z :=
  datetime.toordinal d2 - datetime.toordinal d1.

(** The first month, the last month and the last day of a quarter of the
    fiscal year that starts on 1 October. *)
Definition first_month_of (Q : Z) : Z :=
  if Q =? 1 then 10 else if Q =? 2 then 1 else if Q =? 3 then 4 else 7.

Definition last_month_of (Q : Z) : Z :=
  if Q =? 1 then 12 else if Q =? 2 then 3 else if Q =? 3 then 6 else 9.

Definition last_day_of (Q : Z) : Z :=
  if Q =? 1 then 31 else if Q =? 2 then 31 else 30.

(** The calendar year of the months of quarter [Q] of fiscal year [Y]. *)
Definition calendar_year_of (Y Q : Z) : Z := if Q =? 1 then Y - 1 else Y.

(** The date one day after [FiscalQuarter(Y, Q).end], as a [FiscalDate]. *)
Definition morrow_of_quarter (Y Q : Z) : result FiscalDate.t :=
  q <- FiscalQuarter.__init__ (PyInt Y) (PyInt Q) ;;
  e <- FiscalQuarter.end_ q ;;
  d <- datetime.add_days (datetime.date_of e) 1 ;;
  as_FiscalDate d.

(** The number of days of fiscal year [Y], its first and last day
    included: [(fy.end.date() - fy.start.date()).days + 1]. *)
Definition days_in_fiscal_year (fy : FiscalYear) : result Z :=
  s <- FiscalYear.start fy ;;
  e <- FiscalYear.end_ fy ;;
  Ok (days_between (datetime.date_of s) (datetime.date_of e) + 1).

(** Fiscal periods (fiscal year, quarter) in their order. *)
Definition period_le (p1 p2 : Z * Z) : Prop :=
  fst p1 < fst p2 \/ (fst p1 = fst p2 /\ snd p1 <= snd p2).

Definition fiscal_period (d : FiscalDate.t) : Z * Z :=
  (FiscalDate.fiscal_year d, FiscalDate.quarter d).

(** * Properties *)

(** ** Shared lemmas *)

Lemma forall_from_spec (f : Z -> bool) (n : nat) :
  forall lo, forall_from lo n f = true ->
  forall z, lo <= z < lo + Z.of_nat n -> f z = true.
Proof.
  induction n as [| k IH]; intros lo Hall z Hz.
  - simpl in Hz. lia.
  - simpl in Hall. apply andb_true_iff in Hall. destruct Hall as [Hlo Hrest].
    destruct (Z.eq_dec z lo) as [-> | Hne]; [exact Hlo |].
    apply (IH (lo + 1) Hrest). lia.
Qed.

Lemma date_eqb_eq (d1 d2 : datetime.date) :
  datetime.date_eqb d1 d2 = true -> d1 = d2.
Proof.
  destruct d1 as [y1 m1 x1], d2 as [y2 m2 x2].
  unfold datetime.date_eqb; simpl. intros H.
  apply andb_true_iff in H. destruct H as [H Hd].
  apply andb_true_iff in H. destruct H as [Hy Hm].
  apply Z.eqb_eq in Hy, Hm, Hd. subst. reflexivity.
Qed.

(** The years [_check_year] lets through, and so the fiscal years that
    exist. *)
Lemma FiscalYear_new_int (Y : Z) (fy : FiscalYear) :
  FiscalYear.__new__ (PyInt Y) = Ok fy ->
  datetime.MINYEAR <= Y <= datetime.MAXYEAR /\ fy = mkFiscalYear Y.
Proof.
  unfold FiscalYear.__new__, _check_year; simpl.
  destruct (datetime.MINYEAR <=? Y) eqn:Hlo;
    destruct (Y <=? datetime.MAXYEAR) eqn:Hhi; simpl; intros H;
    try discriminate H.
  apply Z.leb_le in Hlo, Hhi. inversion H. auto.
Qed.

Lemma valid_month (d : datetime.date) :
  datetime.valid d -> 1 <= datetime.month d <= 12.
Proof.
  unfold datetime.valid, datetime._check_date_fields.
  destruct (negb _); [discriminate |].
  destruct ((1 <=? datetime.month d) && (datetime.month d <=? 12)) eqn:Hm;
    simpl; [| discriminate].
  intros _. apply andb_true_iff in Hm. destruct Hm as [H1 H2].
  apply Z.leb_le in H1, H2. auto.
Qed.

Lemma month_cases (m : Z) :
  1 <= m <= 12 ->
  m = 1 \/ m = 2 \/ m = 3 \/ m = 4 \/ m = 5 \/ m = 6
  \/ m = 7 \/ m = 8 \/ m = 9 \/ m = 10 \/ m = 11 \/ m = 12.
Proof. lia. Qed.

Ltac each_month H :=
  apply month_cases in H;
  repeat (destruct H as [H | H]); subst.

(** The quarter of a date, month by month: October to December are the
    first quarter, July to September the fourth. *)
Lemma quarter_by_month (y m x : Z) :
  1 <= m <= 12 ->
  FiscalDate.quarter (datetime.mkdate y m x)
  = if m <? 4 then 2 else if m <? 7 then 3 else if m <? 10 then 4 else 1.
Proof. intros Hm. each_month Hm; reflexivity. Qed.

Lemma follows_onb_sound (Y N : Z) : follows_onb Y N = true -> follows_on Y N.
Proof.
  unfold follows_onb, follows_on.
  destruct (end_date Y N) as [e |]; [| discriminate].
  destruct (start_date Y (N + 1)) as [s |]; [| discriminate].
  destruct (datetime.add_days e 1) as [e1 |] eqn:He1; [| discriminate].
  intros Heq. apply date_eqb_eq in Heq. subst e1.
  exists e, s. auto.
Qed.

Lemma eve_in_previous_quarterb_sound (Y Q : Z) :
  eve_in_previous_quarterb Y Q = true -> eve_in_previous_quarter Y Q.
Proof.
  unfold eve_in_previous_quarterb, eve_in_previous_quarter.
  destruct (eve_of_quarter Y Q) as [d |]; [| discriminate].
  intros H. apply andb_true_iff in H. destruct H as [Hq Hy].
  apply Z.eqb_eq in Hq, Hy. exists d. auto.
Qed.

(** Every fiscal year from 1 to 9999, by evaluation: each quarter starts on
    the day after the one before ends, the first quarter of fiscal year 1
    apart. *)
Lemma follows_on_checked :
  forall_from 1 (Z.to_nat 9999)
    (fun Y => forall_from 1 3
       (fun N => implb ((2 <=? Y) || (2 <=? N)) (follows_onb Y N))) = true.
Proof. vm_compute. reflexivity. Qed.

(** By evaluation again: the eve of each quarter lies in the quarter
    before, the first two quarters of fiscal year 1 apart. *)
Lemma eve_checked :
  forall_from 1 (Z.to_nat 9999)
    (fun Y => forall_from 1 4
       (fun Q => implb ((2 <=? Y) || (3 <=? Q))
                       (eve_in_previous_quarterb Y Q))) = true.
Proof. vm_compute. reflexivity. Qed.

(** ** Validation *)

(** C1.  What [_check_int] does on each shape of input: an [int] is
    returned unchanged and an object that is neither an [int] nor a [str]
    raises [TypeError]; but every [str], of digits or not, raises
    [AttributeError], since [str] has no method [is_digit].  The
    constructor [FiscalYear("2017")] therefore raises [AttributeError]
    where the docstrings promise the fiscal year 2017, and
    [FiscalYear("FY17")] raises it where they promise [TypeError]. *)
Theorem check_int_by_shape :
  (forall n, _check_int (PyInt n) = Ok n)
  /\ (forall s, _check_int (PyStr s) = Raise AttributeError)
  /\ (forall fy, _check_int (PyFiscalYear fy) = Raise TypeError)
  /\ (forall name, _check_int (PyOther name) = Raise TypeError)
  /\ isdigit "2017" = true
  /\ int_of_digits "2017" = 2017
  /\ FiscalYear.__new__ (PyStr "2017") = Raise AttributeError
  /\ isdigit "FY17" = false
  /\ FiscalYear.__new__ (PyStr "FY17") = Raise AttributeError.
Proof.
  repeat split; try reflexivity.
Qed.

(** C2, at the failing input.  [FiscalQuarter(2017, 5)] does not raise
    [ValueError]: it raises [AssertionError], from the assertion on the
    quarter. *)
Lemma FiscalQuarter_5_not_ValueError :
  FiscalQuarter.__init__ (PyInt 2017) (PyInt 5) = Raise AssertionError
  /\ FiscalQuarter.__init__ (PyInt 2017) (PyInt 5) <> Raise ValueError.
Proof. split; [reflexivity | discriminate]. Qed.

(** C2.  What the code does where the claim says [ValueError]: with a
    valid fiscal year, a quarter number outside 1..4 makes the constructor
    of [FiscalQuarter] raise [AssertionError].  [_check_quarter], which is
    written for this check and documented to raise [ValueError], does raise
    it on such a number, but the constructor never calls it, unlike the
    constructor of [FiscalYear], which calls [_check_year]. *)
Theorem FiscalQuarter_quarter_out_of_range (Y quarter : Z) (fy : FiscalYear) :
  FiscalYear.__new__ (PyInt Y) = Ok fy ->
  quarter < 1 \/ 4 < quarter ->
  FiscalQuarter.__init__ (PyInt Y) (PyInt quarter) = Raise AssertionError
  /\ _check_quarter (PyInt quarter) = Raise ValueError.
Proof.
  intros Hfy Hq. apply FiscalYear_new_int in Hfy. destruct Hfy as [HY _].
  unfold FiscalQuarter.__init__, _check_quarter, MIN_QUARTER, MAX_QUARTER.
  simpl.
  replace ((datetime.MINYEAR <=? Y) && (Y <=? datetime.MAXYEAR)) with true
    by (symmetry; apply andb_true_iff; split; apply Z.leb_le; lia).
  replace ((1 <=? quarter) && (quarter <=? 4)) with false.
  - split; reflexivity.
  - symmetry. apply andb_false_iff.
    destruct Hq; [left; apply Z.leb_gt | right; apply Z.leb_gt]; lia.
Qed.

Lemma FiscalQuarter_quarter_out_of_range_witness :
  FiscalQuarter.__init__ (PyInt 2017) (PyInt 5) = Raise AssertionError
  /\ _check_quarter (PyInt 5) = Raise ValueError.
Proof.
  apply (FiscalQuarter_quarter_out_of_range 2017 5 (mkFiscalYear 2017)).
  - reflexivity.
  - right. lia.
Defined.

(** ** From a calendar date to its fiscal quarter and year *)

(** C3, counterexample.  For 15 December 2017 the code gives quarter 1 and
    the formula of the specification, read as written, gives quarter 2. *)
Lemma quarter_is_not_spec_quarter :
  FiscalDate_new 2017 12 15 = Ok (datetime.mkdate 2017 12 15)
  /\ FiscalDate.quarter (datetime.mkdate 2017 12 15) = 1
  /\ spec_quarter (datetime.mkdate 2017 12 15) = 2
  /\ FiscalDate.quarter (datetime.mkdate 2017 12 15)
     <> spec_quarter (datetime.mkdate 2017 12 15).
Proof.
  split; [reflexivity |]. split; [reflexivity |]. split; [reflexivity |].
  vm_compute. discriminate.
Qed.

(** C3, as amended.  The quarter of a date is given by the formula of the
    specification once the month is counted from 0: the month minus 1 is
    shifted back by [start_month - 1] positions, which shifts the calendar
    month back by [start_month]. *)
Theorem quarter_is_spec_quarter_from_zero (d : FiscalDate.t) :
  FiscalDate.quarter d = spec_quarter_from_zero d.
Proof.
  unfold FiscalDate.quarter, spec_quarter_from_zero.
  replace (datetime.month d - 1 - (START_MONTH - 1))
    with (datetime.month d - START_MONTH) by lia.
  reflexivity.
Qed.

(** The formula as written is off by one quarter in the last month of each
    quarter, and only there. *)
Lemma spec_quarter_agrees_iff (d : FiscalDate.t) :
  datetime.valid d ->
  FiscalDate.quarter d = spec_quarter d <-> datetime.month d mod 3 <> 0.
Proof.
  intros Hv. apply valid_month in Hv. destruct d as [y m x]. simpl in Hv.
  unfold FiscalDate.quarter, spec_quarter; simpl datetime.month.
  each_month Hv; vm_compute; split; congruence.
Qed.

(** C4.  The fiscal year of a date is the calendar year plus one from the
    start month on, and the calendar year before it.  The date 2017-10-01
    has fiscal year 2018 and quarter 1 and is the start of the first
    quarter; the seven other start and end tests are false on it. *)
Theorem fiscal_year_of_date :
  (forall d : FiscalDate.t,
      (datetime.month d >= START_MONTH ->
       FiscalDate.fiscal_year d = datetime.year d + 1)
      /\ (datetime.month d < START_MONTH ->
          FiscalDate.fiscal_year d = datetime.year d))
  /\ (let d := datetime.mkdate 2017 10 1 in
      START_MONTH = 10 /\ START_DAY = 1
      /\ FiscalDate_new 2017 10 1 = Ok d
      /\ FiscalDate.fiscal_year d = 2018
      /\ FiscalDate.quarter d = 1
      /\ FiscalDate.is_q1_start d = Ok true
      /\ FiscalDate.is_q2_start d = Ok false
      /\ FiscalDate.is_q3_start d = Ok false
      /\ FiscalDate.is_q4_start d = Ok false
      /\ FiscalDate.is_q1_end d = Ok false
      /\ FiscalDate.is_q2_end d = Ok false
      /\ FiscalDate.is_q3_end d = Ok false
      /\ FiscalDate.is_q4_end d = Ok false).
Proof.
  split.
  - intros d. unfold FiscalDate.fiscal_year.
    destruct (Z.geb_spec (datetime.month d) START_MONTH) as [Hge | Hlt];
      split; intros H; try reflexivity; lia.
  - repeat split.
Qed.

Lemma fiscal_year_of_date_witness :
  FiscalDate.fiscal_year (datetime.mkdate 2017 10 1) = 2017 + 1
  /\ FiscalDate.fiscal_year (datetime.mkdate 2017 9 30) = 2017.
Proof.
  split.
  - apply (proj1 (proj1 fiscal_year_of_date (datetime.mkdate 2017 10 1))).
    unfold START_MONTH; simpl; lia.
  - apply (proj2 (proj1 fiscal_year_of_date (datetime.mkdate 2017 9 30))).
    unfold START_MONTH; simpl; lia.
Defined.

(** ** From a fiscal year and quarter to calendar instants *)

(** C5.  With the fiscal year starting on 1 October, fiscal year 2017 runs
    from 2016-10-01T00:00:00 to 2017-09-30T23:59:59; its first quarter runs
    from 2016-10-01T00:00:00 to 2016-12-31T23:59:59 and its second quarter
    starts at 2017-01-01T00:00:00. *)
Theorem FiscalYear_2017_boundaries :
  START_MONTH = 10 /\ START_DAY = 1
  /\ exists fy q1 q2,
      FiscalYear.__new__ (PyInt 2017) = Ok fy
      /\ FiscalYear.q1 fy = Ok q1
      /\ FiscalYear.q2 fy = Ok q2
      /\ FiscalYear.start fy
         = Ok (datetime.mkdatetime (datetime.mkdate 2016 10 1) 0 0 0)
      /\ FiscalYear.end_ fy
         = Ok (datetime.mkdatetime (datetime.mkdate 2017 9 30) 23 59 59)
      /\ FiscalQuarter.start q1
         = Ok (datetime.mkdatetime (datetime.mkdate 2016 10 1) 0 0 0)
      /\ FiscalQuarter.end_ q1
         = Ok (datetime.mkdatetime (datetime.mkdate 2016 12 31) 23 59 59)
      /\ FiscalQuarter.start q2
         = Ok (datetime.mkdatetime (datetime.mkdate 2017 1 1) 0 0 0).
Proof.
  split; [reflexivity |]. split; [reflexivity |].
  exists (mkFiscalYear 2017), (mkFiscalQuarter 2017 1), (mkFiscalQuarter 2017 2).
  repeat split.
Qed.

(** C6, counterexample.  Fiscal year 1 is valid, and its first quarter has
    no end date (the quarter ends in the calendar year 0), so the day after
    it is not the start of the second quarter. *)
Lemma first_quarter_of_year_1_has_no_end :
  FiscalYear.__new__ (PyInt 1) = Ok (mkFiscalYear 1)
  /\ end_date 1 1 = Raise ValueError
  /\ ~ follows_on 1 1.
Proof.
  split; [reflexivity |]. split; [reflexivity |].
  intros [e [s [He _]]]. discriminate He.
Qed.

(** C6, as amended.  For every valid fiscal year, quarter [N + 1] starts on
    the day after quarter [N] ends, for [N] in 1..3, except that fiscal
    year 1 has no such date for its first quarter. *)
Theorem quarters_follow_on (Y N : Z) (fy : FiscalYear) :
  FiscalYear.__new__ (PyInt Y) = Ok fy ->
  1 <= N <= 3 ->
  2 <= Y \/ 2 <= N ->
  follows_on Y N.
Proof.
  intros Hfy HN Hnot1. apply FiscalYear_new_int in Hfy. destruct Hfy as [HY _].
  unfold datetime.MINYEAR, datetime.MAXYEAR in HY.
  apply follows_onb_sound.
  assert (Hall := forall_from_spec _ _ _ follows_on_checked Y).
  rewrite Z2Nat.id in Hall by lia.
  specialize (Hall ltac:(lia)). cbv beta in Hall.
  assert (HallN := forall_from_spec _ _ _ Hall N ltac:(simpl; lia)).
  cbv beta in HallN.
  replace ((2 <=? Y) || (2 <=? N)) with true in HallN; [exact HallN |].
  symmetry. apply orb_true_iff.
  destruct Hnot1; [left | right]; apply Z.leb_le; lia.
Qed.

Lemma quarters_follow_on_witness :
  follows_on 2017 1 /\ follows_on 2017 2 /\ follows_on 2017 3
  /\ follows_on 1 2.
Proof.
  repeat split.
  - apply (quarters_follow_on 2017 1 (mkFiscalYear 2017)); [reflexivity | lia | lia].
  - apply (quarters_follow_on 2017 2 (mkFiscalYear 2017)); [reflexivity | lia | lia].
  - apply (quarters_follow_on 2017 3 (mkFiscalYear 2017)); [reflexivity | lia | lia].
  - apply (quarters_follow_on 1 2 (mkFiscalYear 1)); [reflexivity | lia | lia].
Defined.

(** C7, counterexample.  In fiscal year 1, which is valid, the first
    quarter has no start date (it would be in the calendar year 0), and
    the second starts on 0001-01-01, the first date there is: the day
    before it is out of range. *)
Lemma year_1_quarters_without_eve :
  FiscalYear.__new__ (PyInt 1) = Ok (mkFiscalYear 1)
  /\ eve_of_quarter 1 1 = Raise ValueError
  /\ eve_of_quarter 1 2 = Raise OverflowError
  /\ ~ eve_in_previous_quarter 1 1
  /\ ~ eve_in_previous_quarter 1 2.
Proof.
  split; [reflexivity |]. split; [reflexivity |]. split; [reflexivity |].
  split; intros [d [Hd _]]; discriminate Hd.
Qed.

(** C7, as amended.  For every valid fiscal year [Y] and quarter [Q] in
    1..4, the day before [FiscalQuarter(Y, Q).start] is in quarter [Q - 1]
    of fiscal year [Y], or in quarter 4 of fiscal year [Y - 1] when [Q] is
    1; fiscal year 1 has no such day for its first two quarters. *)
Theorem eve_of_quarter_in_previous_quarter (Y Q : Z) (fy : FiscalYear) :
  FiscalYear.__new__ (PyInt Y) = Ok fy ->
  1 <= Q <= 4 ->
  2 <= Y \/ 3 <= Q ->
  eve_in_previous_quarter Y Q.
Proof.
  intros Hfy HQ Hnot1. apply FiscalYear_new_int in Hfy. destruct Hfy as [HY _].
  unfold datetime.MINYEAR, datetime.MAXYEAR in HY.
  apply eve_in_previous_quarterb_sound.
  assert (Hall := forall_from_spec _ _ _ eve_checked Y).
  rewrite Z2Nat.id in Hall by lia.
  specialize (Hall ltac:(lia)). cbv beta in Hall.
  assert (HallQ := forall_from_spec _ _ _ Hall Q ltac:(simpl; lia)).
  cbv beta in HallQ.
  replace ((2 <=? Y) || (3 <=? Q)) with true in HallQ; [exact HallQ |].
  symmetry. apply orb_true_iff.
  destruct Hnot1; [left | right]; apply Z.leb_le; lia.
Qed.

Lemma eve_of_quarter_in_previous_quarter_witness :
  eve_in_previous_quarter 2018 1 /\ eve_in_previous_quarter 2018 2
  /\ eve_in_previous_quarter 1 3.
Proof.
  repeat split.
  - apply (eve_of_quarter_in_previous_quarter 2018 1 (mkFiscalYear 2018));
      [reflexivity | lia | lia].
  - apply (eve_of_quarter_in_previous_quarter 2018 2 (mkFiscalYear 2018));
      [reflexivity | lia | lia].
  - apply (eve_of_quarter_in_previous_quarter 1 3 (mkFiscalYear 1));
      [reflexivity | lia | lia].
Defined.

(** C9, counterexample.  [FiscalYear(1).end] does not raise: the fourth
    quarter of fiscal year 1 ends in September of the calendar year 1. *)
Lemma FiscalYear_1_end_returns :
  FiscalYear.__new__ (PyInt datetime.MINYEAR) = Ok (mkFiscalYear 1)
  /\ FiscalYear.end_ (mkFiscalYear 1)
     = Ok (datetime.mkdatetime (datetime.mkdate 1 9 30) 23 59 59)
  /\ ~ raises (FiscalYear.end_ (mkFiscalYear 1)).
Proof.
  split; [reflexivity |]. split; [reflexivity |].
  intros [e He]. discriminate He.
Qed.

(** C9, as amended.  The constructor accepts the minimum year 1, and in
    fiscal year 1 the two quarter boundaries whose month is at or after the
    start month, the start and the end of the first quarter, raise
    [ValueError], the calendar year being 0; so does [FiscalYear(1).start].
    The six other boundaries, and with them [FiscalYear(1).end], are
    dates of the calendar year 1. *)
Theorem FiscalYear_1_boundaries :
  exists fy q1 q2 q3 q4,
    FiscalYear.__new__ (PyInt datetime.MINYEAR) = Ok fy
    /\ FiscalYear.q1 fy = Ok q1 /\ FiscalYear.q2 fy = Ok q2
    /\ FiscalYear.q3 fy = Ok q3 /\ FiscalYear.q4 fy = Ok q4
    /\ FiscalYear.start fy = Raise ValueError
    /\ FiscalQuarter.start q1 = Raise ValueError
    /\ FiscalQuarter.end_ q1 = Raise ValueError
    /\ FiscalQuarter.start q2
       = Ok (datetime.mkdatetime (datetime.mkdate 1 1 1) 0 0 0)
    /\ FiscalQuarter.end_ q2
       = Ok (datetime.mkdatetime (datetime.mkdate 1 3 31) 23 59 59)
    /\ FiscalQuarter.start q3
       = Ok (datetime.mkdatetime (datetime.mkdate 1 4 1) 0 0 0)
    /\ FiscalQuarter.end_ q3
       = Ok (datetime.mkdatetime (datetime.mkdate 1 6 30) 23 59 59)
    /\ FiscalQuarter.start q4
       = Ok (datetime.mkdatetime (datetime.mkdate 1 7 1) 0 0 0)
    /\ FiscalQuarter.end_ q4
       = Ok (datetime.mkdatetime (datetime.mkdate 1 9 30) 23 59 59)
    /\ FiscalYear.end_ fy
       = Ok (datetime.mkdatetime (datetime.mkdate 1 9 30) 23 59 59).
Proof.
  exists (mkFiscalYear 1), (mkFiscalQuarter 1 1), (mkFiscalQuarter 1 2),
    (mkFiscalQuarter 1 3), (mkFiscalQuarter 1 4).
  repeat split.
Qed.

(** ** Comparisons of fiscal years *)

(** C8.  Each of the six comparisons of two fiscal years returns what the
    same comparison of their integer years gives, and returns
    [NotImplemented], without raising, when the other operand is not a
    [FiscalYear]. *)
Theorem FiscalYear_comparisons (self : FiscalYear) :
  (forall other : FiscalYear,
      let x := _fiscal_year self in
      let y := _fiscal_year other in
      compares_as (FiscalYear.__lt__ self (PyFiscalYear other)) (x < y)
      /\ compares_as (FiscalYear.__le__ self (PyFiscalYear other)) (x <= y)
      /\ compares_as (FiscalYear.__eq__ self (PyFiscalYear other)) (x = y)
      /\ compares_as (FiscalYear.__ne__ self (PyFiscalYear other)) (x <> y)
      /\ compares_as (FiscalYear.__ge__ self (PyFiscalYear other)) (x >= y)
      /\ compares_as (FiscalYear.__gt__ self (PyFiscalYear other)) (x > y))
  /\ (forall other : PyValue,
         isinstance_FiscalYear other = false ->
         FiscalYear.__lt__ self other = Ok NotImplemented
         /\ FiscalYear.__le__ self other = Ok NotImplemented
         /\ FiscalYear.__eq__ self other = Ok NotImplemented
         /\ FiscalYear.__ne__ self other = Ok NotImplemented
         /\ FiscalYear.__ge__ self other = Ok NotImplemented
         /\ FiscalYear.__gt__ self other = Ok NotImplemented).
Proof.
  split.
  - intros other x y. unfold compares_as; simpl. fold x y.
    repeat split; eexists; (split; [reflexivity |]).
    + apply Z.ltb_lt.
    + apply Z.leb_le.
    + apply Z.eqb_eq.
    + rewrite negb_true_iff. apply Z.eqb_neq.
    + rewrite Z.geb_le. lia.
    + rewrite Z.gtb_lt. lia.
  - intros other Hother.
    destruct other; simpl in Hother; try discriminate Hother;
      repeat split.
Qed.

Lemma FiscalYear_comparisons_witness :
  compares_as
    (FiscalYear.__lt__ (mkFiscalYear 2017) (PyFiscalYear (mkFiscalYear 2018)))
    (2017 < 2018)
  /\ compares_as
       (FiscalYear.__eq__ (mkFiscalYear 2017) (PyFiscalYear (mkFiscalYear 2017)))
       (2017 = 2017)
  /\ FiscalYear.__lt__ (mkFiscalYear 2017) (PyInt 2018) = Ok NotImplemented
  /\ FiscalYear.__eq__ (mkFiscalYear 2017) (PyStr "2017") = Ok NotImplemented.
Proof.
  split; [| split; [| split]].
  - apply (proj1 (FiscalYear_comparisons (mkFiscalYear 2017))
             (mkFiscalYear 2018)).
  - apply (proj1 (FiscalYear_comparisons (mkFiscalYear 2017))
             (mkFiscalYear 2017)).
  - apply (proj2 (FiscalYear_comparisons (mkFiscalYear 2017)) (PyInt 2018)).
    reflexivity.
  - apply (proj2 (FiscalYear_comparisons (mkFiscalYear 2017)) (PyStr "2017")).
    reflexivity.
Defined.

(** ** Quarters of a fiscal date *)

(** C10.  On every calendar date the quarter, the previous quarter and the
    next quarter are in 1..4; the fiscal year of the previous quarter is
    the fiscal year minus 1 exactly when the quarter is 1, and the fiscal
    year of the next quarter is the fiscal year plus 1 exactly when the
    quarter is 4. *)
Theorem quarters_in_range (d : FiscalDate.t) :
  datetime.valid d ->
  1 <= FiscalDate.quarter d <= 4
  /\ 1 <= FiscalDate.prev_quarter d <= 4
  /\ 1 <= FiscalDate.next_quarter d <= 4
  /\ (FiscalDate.prev_quarter_fiscal_year d = FiscalDate.fiscal_year d - 1
      <-> FiscalDate.quarter d = 1)
  /\ (FiscalDate.next_quarter_fiscal_year d = FiscalDate.fiscal_year d + 1
      <-> FiscalDate.quarter d = 4).
Proof.
  intros Hv. apply valid_month in Hv. destruct d as [y m x]. simpl in Hv.
  unfold FiscalDate.prev_quarter, FiscalDate.next_quarter,
    FiscalDate.prev_quarter_fiscal_year, FiscalDate.next_quarter_fiscal_year.
  rewrite (quarter_by_month y m x Hv).
  generalize (FiscalDate.fiscal_year (datetime.mkdate y m x)). intros fy.
  each_month Hv; simpl; lia.
Qed.

Lemma quarters_in_range_witness :
  1 <= FiscalDate.quarter (datetime.mkdate 2017 10 1) <= 4
  /\ 1 <= FiscalDate.prev_quarter (datetime.mkdate 2017 10 1) <= 4
  /\ 1 <= FiscalDate.next_quarter (datetime.mkdate 2017 10 1) <= 4
  /\ (FiscalDate.prev_quarter_fiscal_year (datetime.mkdate 2017 10 1)
      = FiscalDate.fiscal_year (datetime.mkdate 2017 10 1) - 1
      <-> FiscalDate.quarter (datetime.mkdate 2017 10 1) = 1)
  /\ (FiscalDate.next_quarter_fiscal_year (datetime.mkdate 2017 10 1)
      = FiscalDate.fiscal_year (datetime.mkdate 2017 10 1) + 1
      <-> FiscalDate.quarter (datetime.mkdate 2017 10 1) = 4).
Proof.
  apply (quarters_in_range (datetime.mkdate 2017 10 1)). reflexivity.
Defined.

(** * Further properties of the code *)

(** ** Lemmas on the library calls *)

Ltac decide_leb :=
  repeat match goal with
         | |- context [?a <=? ?b] =>
             destruct (Z.leb_spec a b); try lia
         | |- context [?a <? ?b] =>
             destruct (Z.ltb_spec a b); try lia
         end.

(** The number of days of a month other than February. *)
Lemma days_in_month_not_February (y m : Z) :
  1 <= m <= 12 -> m <> 2 ->
  datetime._days_in_month y m
  = datetime.index datetime._DAYS_IN_MONTH m.
Proof.
  intros Hm Hne. unfold datetime._days_in_month.
  replace (m =? 2) with false by (symmetry; apply Z.eqb_neq; exact Hne).
  reflexivity.
Qed.

Lemma check_date_fields_Ok (y m x : Z) :
  datetime.MINYEAR <= y <= datetime.MAXYEAR ->
  1 <= m <= 12 ->
  1 <= x <= datetime._days_in_month y m ->
  datetime._check_date_fields y m x = Ok tt.
Proof.
  intros Hy Hm Hx. unfold datetime._check_date_fields.
  decide_leb. reflexivity.
Qed.

Lemma check_date_fields_bad_year (y m x : Z) :
  y < datetime.MINYEAR \/ datetime.MAXYEAR < y ->
  datetime._check_date_fields y m x = Raise ValueError.
Proof.
  intros Hy. unfold datetime._check_date_fields.
  destruct (Z.leb_spec datetime.MINYEAR y);
    destruct (Z.leb_spec y datetime.MAXYEAR); simpl; try reflexivity; lia.
Qed.

Lemma valid_fields (d : datetime.date) :
  datetime.valid d ->
  datetime.MINYEAR <= datetime.year d <= datetime.MAXYEAR
  /\ 1 <= datetime.month d <= 12
  /\ 1 <= datetime.day d
     <= datetime._days_in_month (datetime.year d) (datetime.month d).
Proof.
  unfold datetime.valid, datetime._check_date_fields.
  destruct (Z.leb_spec datetime.MINYEAR (datetime.year d));
    destruct (Z.leb_spec (datetime.year d) datetime.MAXYEAR);
    simpl; try discriminate.
  destruct (Z.leb_spec 1 (datetime.month d));
    destruct (Z.leb_spec (datetime.month d) 12);
    simpl; try discriminate.
  destruct (Z.leb_spec 1 (datetime.day d));
    destruct (Z.leb_spec (datetime.day d)
                (datetime._days_in_month (datetime.year d) (datetime.month d)));
    simpl; try discriminate.
  intros _. lia.
Qed.

(** ** Construction *)

Lemma check_year_int (n : Z) :
  _check_year (PyInt n)
  = if (datetime.MINYEAR <=? n) && (n <=? datetime.MAXYEAR) then Ok n
    else Raise ValueError.
Proof. reflexivity. Qed.

(** A year that is an [int] is refused exactly when it is outside
    1..9999, and then with [ValueError]; otherwise the object holds it. *)
Theorem FiscalYear_new_int_range (n : Z) :
  (FiscalYear.__new__ (PyInt n) = Raise ValueError
   <-> n < datetime.MINYEAR \/ datetime.MAXYEAR < n)
  /\ (FiscalYear.__new__ (PyInt n) = Ok (mkFiscalYear n)
      <-> datetime.MINYEAR <= n <= datetime.MAXYEAR)
  /\ FiscalYear.__new__ (PyInt 0) = Raise ValueError
  /\ FiscalYear.__new__ (PyInt 10000) = Raise ValueError.
Proof.
  unfold FiscalYear.__new__. rewrite check_year_int.
  unfold datetime.MINYEAR, datetime.MAXYEAR.
  destruct (Z.leb_spec 1 n) as [Hlo | Hlo];
    destruct (Z.leb_spec n 9999) as [Hhi | Hhi]; simpl;
    (split; [| split; [| split; reflexivity]]);
    split; intros Hx; try discriminate Hx; try reflexivity; lia.
Qed.

(** Every [FiscalYear] object that the constructor returns holds a year
    in 1..9999; and when the argument was an [int], it holds that
    [int]. *)
Theorem FiscalYear_invariant (v : PyValue) (fy : FiscalYear) :
  FiscalYear.__new__ v = Ok fy ->
  datetime.MINYEAR <= FiscalYear.fiscal_year fy <= datetime.MAXYEAR
  /\ (forall n, v = PyInt n -> FiscalYear.fiscal_year fy = n).
Proof.
  destruct v as [m | s | other | name]; try discriminate.
  intros H. apply FiscalYear_new_int in H. destruct H as [Hm ->].
  simpl. split; [exact Hm |].
  intros n Hn. injection Hn as ->. reflexivity.
Qed.

Lemma FiscalYear_invariant_witness :
  datetime.MINYEAR <= FiscalYear.fiscal_year (mkFiscalYear 2017)
  <= datetime.MAXYEAR
  /\ (forall n, PyInt 2017 = PyInt n ->
                FiscalYear.fiscal_year (mkFiscalYear 2017) = n).
Proof.
  apply (FiscalYear_invariant (PyInt 2017) (mkFiscalYear 2017)). reflexivity.
Defined.

(** On an [int], [_check_quarter] returns it unchanged exactly when it is
    in 1..4 and raises [ValueError] exactly when it is not; and whatever
    the argument, a quarter that [_check_quarter] returns is in 1..4. *)
Theorem check_quarter_on_int (n : Z) :
  (_check_quarter (PyInt n) = Ok n <-> MIN_QUARTER <= n <= MAX_QUARTER)
  /\ (_check_quarter (PyInt n) = Raise ValueError
      <-> n < MIN_QUARTER \/ MAX_QUARTER < n)
  /\ (forall (v : PyValue) (q : Z),
         _check_quarter v = Ok q -> MIN_QUARTER <= q <= MAX_QUARTER).
Proof.
  unfold _check_quarter, MIN_QUARTER, MAX_QUARTER.
  split; [| split].
  - simpl. destruct (Z.leb_spec 1 n) as [Hlo | Hlo];
      destruct (Z.leb_spec n 4) as [Hhi | Hhi]; simpl; split; intros H;
      try discriminate H; try reflexivity; lia.
  - simpl. destruct (Z.leb_spec 1 n) as [Hlo | Hlo];
      destruct (Z.leb_spec n 4) as [Hhi | Hhi]; simpl; split; intros H;
      try discriminate H; try reflexivity; lia.
  - intros v q. destruct v as [m | s | other | name]; simpl;
      try discriminate.
    destruct (Z.leb_spec 1 m) as [Hlo | Hlo];
      destruct (Z.leb_spec m 4) as [Hhi | Hhi]; simpl; intros H;
      try discriminate H.
    injection H as <-. lia.
Qed.

(** The constructor of [FiscalQuarter] either returns the quarter that
    holds its two arguments, which are then [int]s, the year in 1..9999 and
    the quarter in 1..4, or raises [AssertionError]: it raises nothing
    else, and accepts no string. *)
Theorem FiscalQuarter_init_cases (fiscal_year quarter : PyValue) :
  (exists Y Q,
      fiscal_year = PyInt Y /\ quarter = PyInt Q
      /\ datetime.MINYEAR <= Y <= datetime.MAXYEAR /\ 1 <= Q <= 4
      /\ FiscalQuarter.__init__ fiscal_year quarter
         = Ok (mkFiscalQuarter Y Q)
      /\ FiscalQuarter.fiscal_year (mkFiscalQuarter Y Q) = Y
      /\ FiscalQuarter.quarter (mkFiscalQuarter Y Q) = Q)
  \/ FiscalQuarter.__init__ fiscal_year quarter = Raise AssertionError.
Proof.
  destruct fiscal_year as [Y | s | other | name]; try (right; reflexivity).
  destruct quarter as [Q | s | other | name]; try (right; reflexivity).
  unfold FiscalQuarter.__init__, datetime.MINYEAR, datetime.MAXYEAR. simpl.
  destruct (Z.leb_spec 1 Y); destruct (Z.leb_spec Y 9999); simpl;
    try (right; reflexivity).
  destruct (Z.leb_spec 1 Q); destruct (Z.leb_spec Q 4); simpl;
    try (right; reflexivity).
  left. exists Y, Q. repeat split; lia.
Qed.

Lemma FiscalQuarter_init_Ok (Y Q : Z) :
  datetime.MINYEAR <= Y <= datetime.MAXYEAR -> 1 <= Q <= 4 ->
  FiscalQuarter.__init__ (PyInt Y) (PyInt Q) = Ok (mkFiscalQuarter Y Q).
Proof.
  intros HY HQ.
  unfold FiscalQuarter.__init__, datetime.MINYEAR, datetime.MAXYEAR in *.
  simpl. decide_leb. reflexivity.
Qed.

Lemma FiscalQuarter_init_raises (fiscal_year quarter : PyValue) (e : PyExc) :
  FiscalQuarter.__init__ fiscal_year quarter = Raise e -> e = AssertionError.
Proof.
  destruct fiscal_year as [Y | s | other | name];
    try (intros H; injection H as <-; reflexivity).
  destruct quarter as [Q | s | other | name];
    try (intros H; injection H as <-; reflexivity).
  unfold FiscalQuarter.__init__. simpl.
  destruct ((datetime.MINYEAR <=? Y) && (Y <=? datetime.MAXYEAR)); simpl;
    [| intros H; injection H as <-; reflexivity].
  destruct ((1 <=? Q) && (Q <=? 4)); simpl; intros H;
    [discriminate H | injection H as <-; reflexivity].
Qed.

Lemma FiscalQuarter_init_shape (fiscal_year quarter : PyValue)
      (q : FiscalQuarter) :
  FiscalQuarter.__init__ fiscal_year quarter = Ok q ->
  exists Y Q,
    fiscal_year = PyInt Y /\ quarter = PyInt Q
    /\ datetime.MINYEAR <= Y <= datetime.MAXYEAR /\ 1 <= Q <= 4
    /\ q = mkFiscalQuarter Y Q.
Proof.
  destruct fiscal_year as [Y | s | other | name]; try discriminate.
  destruct quarter as [Q | s | other | name]; try discriminate.
  unfold FiscalQuarter.__init__, datetime.MINYEAR, datetime.MAXYEAR. simpl.
  destruct (Z.leb_spec 1 Y); destruct (Z.leb_spec Y 9999); simpl;
    try discriminate.
  destruct (Z.leb_spec 1 Q); destruct (Z.leb_spec Q 4); simpl;
    try discriminate.
  intros Hq. inversion Hq. exists Y, Q. repeat split; lia.
Qed.

(** The four quarters of a [FiscalYear] that the constructor returned
    never fail to build: the year it holds passes the assertions of
    [FiscalQuarter], and they are quarters 1 to 4 of that fiscal year. *)
Theorem FiscalYear_quarters_return (v : PyValue) (fy : FiscalYear) :
  FiscalYear.__new__ v = Ok fy ->
  FiscalYear.q1 fy = Ok (mkFiscalQuarter (FiscalYear.fiscal_year fy) 1)
  /\ FiscalYear.q2 fy = Ok (mkFiscalQuarter (FiscalYear.fiscal_year fy) 2)
  /\ FiscalYear.q3 fy = Ok (mkFiscalQuarter (FiscalYear.fiscal_year fy) 3)
  /\ FiscalYear.q4 fy = Ok (mkFiscalQuarter (FiscalYear.fiscal_year fy) 4).
Proof.
  destruct v as [n | s | other | name]; try discriminate.
  intros H. apply FiscalYear_new_int in H. destruct H as [Hn ->].
  unfold FiscalYear.q1, FiscalYear.q2, FiscalYear.q3, FiscalYear.q4.
  simpl FiscalYear.fiscal_year.
  repeat split; apply FiscalQuarter_init_Ok; auto; lia.
Qed.

Lemma FiscalYear_quarters_return_witness :
  FiscalYear.q1 (mkFiscalYear 2017) = Ok (mkFiscalQuarter 2017 1)
  /\ FiscalYear.q2 (mkFiscalYear 2017) = Ok (mkFiscalQuarter 2017 2)
  /\ FiscalYear.q3 (mkFiscalYear 2017) = Ok (mkFiscalQuarter 2017 3)
  /\ FiscalYear.q4 (mkFiscalYear 2017) = Ok (mkFiscalQuarter 2017 4).
Proof.
  apply (FiscalYear_quarters_return (PyInt 2017) (mkFiscalYear 2017)).
  reflexivity.
Defined.

(** ** The instants of a quarter *)

Lemma days_in_month_bounds (y m : Z) :
  1 <= m <= 12 -> 28 <= datetime._days_in_month y m <= 31.
Proof.
  intros Hm. unfold datetime._days_in_month.
  each_month Hm; simpl; try (vm_compute; split; discriminate).
  destruct (datetime._is_leap y); vm_compute; split; discriminate.
Qed.

Lemma datetime_new_Ok (y m x h mi s : Z) :
  datetime.MINYEAR <= y <= datetime.MAXYEAR ->
  1 <= m <= 12 ->
  1 <= x <= datetime._days_in_month y m ->
  0 <= h <= 23 -> 0 <= mi <= 59 -> 0 <= s <= 59 ->
  datetime.datetime_new y m x h mi s
  = Ok (datetime.mkdatetime (datetime.mkdate y m x) h mi s).
Proof.
  intros Hy Hm Hx Hh Hmi Hs. unfold datetime.datetime_new.
  rewrite (check_date_fields_Ok y m x Hy Hm Hx). simpl.
  unfold datetime._check_time_fields. decide_leb. reflexivity.
Qed.

Lemma datetime_new_bad_year (y m x h mi s : Z) :
  y < datetime.MINYEAR \/ datetime.MAXYEAR < y ->
  datetime.datetime_new y m x h mi s = Raise ValueError.
Proof.
  intros Hy. unfold datetime.datetime_new.
  rewrite (check_date_fields_bad_year y m x Hy). reflexivity.
Qed.

(** In a month other than February, [monthrange] gives the number of days
    of the table, whatever the year. *)
Lemma monthrange_ndays (y m : Z) :
  datetime.MINYEAR <= y <= datetime.MAXYEAR ->
  1 <= m <= 12 -> m <> 2 ->
  exists day1,
    calendar.monthrange y m = Ok (day1, datetime.index calendar.mdays m).
Proof.
  intros Hy Hm Hne. unfold calendar.monthrange, calendar.weekday.
  replace ((1 <=? m) && (m <=? 12)) with true
    by (symmetry; apply andb_true_iff; split; apply Z.leb_le; lia).
  replace ((datetime.MINYEAR <=? y) && (y <=? datetime.MAXYEAR)) with true
    by (symmetry; apply andb_true_iff; split; apply Z.leb_le; lia).
  simpl negb. cbv iota.
  unfold datetime.date_new.
  rewrite (check_date_fields_Ok y m 1 Hy Hm)
    by (pose proof (days_in_month_bounds y m Hm); lia).
  simpl bind.
  replace (m =? calendar.February) with false
    by (symmetry; apply Z.eqb_neq; exact Hne).
  simpl. eexists. rewrite Z.add_0_r. reflexivity.
Qed.

Lemma FiscalQuarter_start_Ok (Y Q : Z) :
  datetime.MINYEAR <= Y <= datetime.MAXYEAR -> 1 <= Q <= 4 ->
  2 <= Y \/ 2 <= Q ->
  FiscalQuarter.start (mkFiscalQuarter Y Q)
  = Ok (datetime.mkdatetime
          (datetime.mkdate (calendar_year_of Y Q) (first_month_of Q) 1)
          0 0 0).
Proof.
  intros HY HQ Hnot1. unfold datetime.MINYEAR, datetime.MAXYEAR in HY.
  assert (HQ' : Q = 1 \/ Q = 2 \/ Q = 3 \/ Q = 4) by lia.
  destruct HQ' as [-> | [-> | [-> | ->]]];
    unfold FiscalQuarter.start, calendar_year_of, first_month_of;
    simpl; apply datetime_new_Ok;
    unfold datetime.MINYEAR, datetime.MAXYEAR; try lia;
    rewrite days_in_month_not_February by lia; vm_compute; split; discriminate.
Qed.

Lemma FiscalQuarter_end_Ok (Y Q : Z) :
  datetime.MINYEAR <= Y <= datetime.MAXYEAR -> 1 <= Q <= 4 ->
  2 <= Y \/ 2 <= Q ->
  FiscalQuarter.end_ (mkFiscalQuarter Y Q)
  = Ok (datetime.mkdatetime
          (datetime.mkdate (calendar_year_of Y Q) (last_month_of Q)
                           (last_day_of Q))
          23 59 59).
Proof.
  intros HY HQ Hnot1. unfold datetime.MINYEAR, datetime.MAXYEAR in HY.
  assert (HQ' : Q = 1 \/ Q = 2 \/ Q = 3 \/ Q = 4) by lia.
  destruct HQ' as [-> | [-> | [-> | ->]]];
    unfold FiscalQuarter.end_, calendar_year_of, last_month_of, last_day_of;
    simpl;
    try change (15 mod 12) with 3; try change (18 mod 12) with 6;
    try change (21 mod 12) with 9;
    match goal with
    | |- bind (calendar.monthrange ?y ?m) _ = _ =>
        destruct (monthrange_ndays y m) as [day1 Hrange];
        [ unfold datetime.MINYEAR, datetime.MAXYEAR; lia | lia | lia
        | rewrite Hrange ]
    end;
    simpl; apply datetime_new_Ok;
    unfold datetime.MINYEAR, datetime.MAXYEAR; try lia;
    rewrite days_in_month_not_February by lia; vm_compute; split; discriminate.
Qed.

(** The first quarter of fiscal year 1 would start and end in the calendar
    year 0. *)
Lemma FiscalQuarter_1_1_raises :
  FiscalQuarter.start (mkFiscalQuarter 1 1) = Raise ValueError
  /\ FiscalQuarter.end_ (mkFiscalQuarter 1 1) = Raise ValueError.
Proof. split; reflexivity. Qed.

(** A quarter that the constructor returned starts at midnight on the
    first day of October, January, April or July, according to its number,
    October being in the calendar year before the fiscal year; only the
    first quarter of fiscal year 1 has no start, and [start] raises
    [ValueError]. *)
Theorem FiscalQuarter_start_form (fiscal_year quarter : PyValue)
        (q : FiscalQuarter) :
  FiscalQuarter.__init__ fiscal_year quarter = Ok q ->
  let Y := FiscalQuarter.fiscal_year q in
  let Q := FiscalQuarter.quarter q in
  FiscalQuarter.start q
  = if (Y =? 1) && (Q =? 1) then Raise ValueError
    else Ok (datetime.mkdatetime
               (datetime.mkdate (calendar_year_of Y Q) (first_month_of Q) 1)
               0 0 0).
Proof.
  intros Hq.
  destruct (FiscalQuarter_init_shape fiscal_year quarter q Hq)
    as [Y [Q [_ [_ [HY [HQ ->]]]]]].
  simpl. destruct (Z.eqb_spec Y 1) as [-> | HY1];
    [destruct (Z.eqb_spec Q 1) as [-> | HQ1] |]; simpl.
  - reflexivity.
  - apply FiscalQuarter_start_Ok; auto; lia.
  - apply FiscalQuarter_start_Ok; auto.
    unfold datetime.MINYEAR in HY. lia.
Qed.

Lemma FiscalQuarter_start_form_witness :
  FiscalQuarter.start (mkFiscalQuarter 2024 1)
  = Ok (datetime.mkdatetime (datetime.mkdate 2023 10 1) 0 0 0).
Proof.
  apply (FiscalQuarter_start_form (PyInt 2024) (PyInt 1)
           (mkFiscalQuarter 2024 1)).
  reflexivity.
Defined.

(** A quarter that the constructor returned ends at 23:59:59 on 31
    December, 31 March, 30 June or 30 September, according to its number:
    no quarter ends in February, so the last day never depends on leap
    years.  Only the first quarter of fiscal year 1 has no end, and [end]
    raises [ValueError]. *)
Theorem FiscalQuarter_end_form (fiscal_year quarter : PyValue)
        (q : FiscalQuarter) :
  FiscalQuarter.__init__ fiscal_year quarter = Ok q ->
  let Y := FiscalQuarter.fiscal_year q in
  let Q := FiscalQuarter.quarter q in
  FiscalQuarter.end_ q
  = if (Y =? 1) && (Q =? 1) then Raise ValueError
    else Ok (datetime.mkdatetime
               (datetime.mkdate (calendar_year_of Y Q) (last_month_of Q)
                                (last_day_of Q))
               23 59 59).
Proof.
  intros Hq.
  destruct (FiscalQuarter_init_shape fiscal_year quarter q Hq)
    as [Y [Q [_ [_ [HY [HQ ->]]]]]].
  simpl. destruct (Z.eqb_spec Y 1) as [-> | HY1];
    [destruct (Z.eqb_spec Q 1) as [-> | HQ1] |]; simpl.
  - reflexivity.
  - apply FiscalQuarter_end_Ok; auto; lia.
  - apply FiscalQuarter_end_Ok; auto.
    unfold datetime.MINYEAR in HY. lia.
Qed.

Lemma FiscalQuarter_end_form_witness :
  FiscalQuarter.end_ (mkFiscalQuarter 2024 2)
  = Ok (datetime.mkdatetime (datetime.mkdate 2024 3 31) 23 59 59).
Proof.
  apply (FiscalQuarter_end_form (PyInt 2024) (PyInt 2)
           (mkFiscalQuarter 2024 2)).
  reflexivity.
Defined.

Lemma FiscalYear_end_value (Y : Z) :
  datetime.MINYEAR <= Y <= datetime.MAXYEAR ->
  FiscalYear.end_ (mkFiscalYear Y)
  = Ok (datetime.mkdatetime (datetime.mkdate Y 9 30) 23 59 59).
Proof.
  intros HY. unfold FiscalYear.end_, FiscalYear.q4. simpl FiscalYear.fiscal_year.
  rewrite FiscalQuarter_init_Ok by (auto; lia). simpl bind.
  apply (FiscalQuarter_end_Ok Y 4); auto; lia.
Qed.

Lemma FiscalYear_start_value (Y : Z) :
  2 <= Y <= datetime.MAXYEAR ->
  FiscalYear.start (mkFiscalYear Y)
  = Ok (datetime.mkdatetime (datetime.mkdate (Y - 1) 10 1) 0 0 0).
Proof.
  intros HY. unfold FiscalYear.start, FiscalYear.q1. simpl FiscalYear.fiscal_year.
  assert (HY' : datetime.MINYEAR <= Y <= datetime.MAXYEAR)
    by (unfold datetime.MINYEAR; lia).
  rewrite FiscalQuarter_init_Ok by (auto; lia). simpl bind.
  apply (FiscalQuarter_start_Ok Y 1); auto; lia.
Qed.

(** A fiscal year that the constructor returned ends at 23:59:59 on 30
    September of the calendar year of its number, and [end] never raises;
    it starts at midnight on 1 October of the calendar year before, which
    fiscal year 1 does not have: there [start] raises [ValueError]. *)
Theorem FiscalYear_start_end_form (v : PyValue) (fy : FiscalYear) :
  FiscalYear.__new__ v = Ok fy ->
  let Y := FiscalYear.fiscal_year fy in
  FiscalYear.end_ fy
  = Ok (datetime.mkdatetime (datetime.mkdate Y 9 30) 23 59 59)
  /\ FiscalYear.start fy
     = if Y =? 1 then Raise ValueError
       else Ok (datetime.mkdatetime (datetime.mkdate (Y - 1) 10 1) 0 0 0).
Proof.
  destruct v as [n | s | other | name]; try discriminate.
  intros H. apply FiscalYear_new_int in H. destruct H as [Hn ->].
  simpl. split.
  - apply FiscalYear_end_value. exact Hn.
  - destruct (Z.eqb_spec n 1) as [-> | Hn1]; [reflexivity |].
    apply FiscalYear_start_value. unfold datetime.MINYEAR in Hn. lia.
Qed.

Lemma FiscalYear_start_end_form_witness :
  FiscalYear.end_ (mkFiscalYear 2024)
  = Ok (datetime.mkdatetime (datetime.mkdate 2024 9 30) 23 59 59)
  /\ FiscalYear.start (mkFiscalYear 2024)
     = Ok (datetime.mkdatetime (datetime.mkdate 2023 10 1) 0 0 0).
Proof.
  apply (FiscalYear_start_end_form (PyInt 2024) (mkFiscalYear 2024)).
  reflexivity.
Defined.

(** ** Fiscal dates and the quarters they are in *)

Lemma date_leb_iff (y1 m1 x1 y2 m2 x2 : Z) :
  date_leb (datetime.mkdate y1 m1 x1) (datetime.mkdate y2 m2 x2) = true
  <-> y1 < y2 \/ (y1 = y2 /\ (m1 < m2 \/ (m1 = m2 /\ x1 <= x2))).
Proof.
  unfold date_leb; simpl.
  rewrite orb_true_iff, andb_true_iff, orb_true_iff, andb_true_iff.
  rewrite !Z.ltb_lt, !Z.eqb_eq, Z.leb_le. reflexivity.
Qed.

Lemma fiscal_year_by_month (y m x : Z) :
  FiscalDate.fiscal_year (datetime.mkdate y m x)
  = if m <? 10 then y else y + 1.
Proof.
  unfold FiscalDate.fiscal_year, START_MONTH; simpl.
  rewrite Z.geb_leb.
  destruct (Z.leb_spec 10 m); destruct (Z.ltb_spec m 10); try reflexivity; lia.
Qed.

(** What the tests below need of a valid date: its fields within bounds,
    the day within the longest month its month can be. *)
Lemma valid_day_bound (y m x : Z) :
  datetime.valid (datetime.mkdate y m x) ->
  1 <= y <= 9999 /\ 1 <= m <= 12 /\ 1 <= x <= 31
  /\ (m = 6 \/ m = 9 -> x <= 30).
Proof.
  intros Hv. apply valid_fields in Hv. simpl in Hv.
  unfold datetime.MINYEAR, datetime.MAXYEAR in Hv.
  destruct Hv as [Hy [Hm Hx]].
  pose proof (days_in_month_bounds y m Hm) as Hb.
  repeat split; try lia.
  intros [-> | ->]; rewrite days_in_month_not_February in Hx by lia;
    vm_compute in Hx; destruct Hx as [_ Hx]; vm_compute; exact Hx.
Qed.

(** A date lies within the quarter that [fiscal_year] and [quarter] name:
    that quarter can be built, it has a start and an end, and the date is
    not before the one nor after the other.  This holds for every date
    whose fiscal year is at most 9999, that is, every date but those of
    October to December 9999. *)
Theorem date_within_its_quarter (d : FiscalDate.t) :
  datetime.valid d ->
  FiscalDate.fiscal_year d <= datetime.MAXYEAR ->
  exists q s e,
    FiscalQuarter.__init__ (PyInt (FiscalDate.fiscal_year d))
                           (PyInt (FiscalDate.quarter d)) = Ok q
    /\ FiscalQuarter.start q = Ok s
    /\ FiscalQuarter.end_ q = Ok e
    /\ date_leb (datetime.date_of s) d = true
    /\ date_leb d (datetime.date_of e) = true.
Proof.
  destruct d as [y m x]. intros Hv Hfy.
  apply valid_day_bound in Hv. destruct Hv as [Hy [Hm [Hx H30]]].
  rewrite fiscal_year_by_month in *. rewrite (quarter_by_month y m x Hm).
  unfold datetime.MAXYEAR in Hfy.
  set (Y := if m <? 10 then y else y + 1) in *.
  set (Q := if m <? 4 then 2 else if m <? 7 then 3 else if m <? 10 then 4 else 1).
  assert (HY : datetime.MINYEAR <= Y <= datetime.MAXYEAR)
    by (unfold datetime.MINYEAR, datetime.MAXYEAR; subst Y;
        destruct (m <? 10); lia).
  assert (HQ : 1 <= Q <= 4)
    by (subst Q; destruct (m <? 4), (m <? 7), (m <? 10); lia).
  assert (Hnot1 : 2 <= Y \/ 2 <= Q)
    by (subst Y Q; destruct (Z.ltb_spec m 4), (Z.ltb_spec m 7),
          (Z.ltb_spec m 10); lia).
  exists (mkFiscalQuarter Y Q).
  eexists. eexists.
  split; [apply FiscalQuarter_init_Ok; assumption |].
  split; [apply FiscalQuarter_start_Ok; assumption |].
  split; [apply FiscalQuarter_end_Ok; assumption |].
  simpl datetime.date_of. rewrite !date_leb_iff.
  subst Y Q. unfold calendar_year_of, first_month_of, last_month_of, last_day_of.
  each_month Hm; simpl; lia.
Qed.

Lemma date_within_its_quarter_witness :
  exists q s e,
    FiscalQuarter.__init__
      (PyInt (FiscalDate.fiscal_year (datetime.mkdate 2024 2 29)))
      (PyInt (FiscalDate.quarter (datetime.mkdate 2024 2 29))) = Ok q
    /\ FiscalQuarter.start q = Ok s
    /\ FiscalQuarter.end_ q = Ok e
    /\ date_leb (datetime.date_of s) (datetime.mkdate 2024 2 29) = true
    /\ date_leb (datetime.mkdate 2024 2 29) (datetime.date_of e) = true.
Proof.
  apply (date_within_its_quarter (datetime.mkdate 2024 2 29)).
  - reflexivity.
  - vm_compute. discriminate.
Defined.

(** The fiscal period of a date never goes back as the date goes forward:
    of two dates in calendar order, the later one is in the same fiscal
    year and quarter or in a later one. *)
Theorem fiscal_period_monotone (d1 d2 : FiscalDate.t) :
  datetime.valid d1 -> datetime.valid d2 ->
  date_leb d1 d2 = true ->
  period_le (fiscal_period d1) (fiscal_period d2).
Proof.
  destruct d1 as [y1 m1 x1], d2 as [y2 m2 x2]. intros Hv1 Hv2 Hle.
  apply valid_month in Hv1, Hv2. simpl in Hv1, Hv2.
  apply date_leb_iff in Hle.
  unfold period_le, fiscal_period. simpl fst. simpl snd.
  rewrite !fiscal_year_by_month.
  rewrite (quarter_by_month y1 m1 x1 Hv1), (quarter_by_month y2 m2 x2 Hv2).
  destruct (Z.ltb_spec m1 4), (Z.ltb_spec m1 7), (Z.ltb_spec m1 10),
    (Z.ltb_spec m2 4), (Z.ltb_spec m2 7), (Z.ltb_spec m2 10); lia.
Qed.

Lemma fiscal_period_monotone_witness :
  period_le (fiscal_period (datetime.mkdate 2017 9 30))
            (fiscal_period (datetime.mkdate 2017 10 1)).
Proof.
  apply fiscal_period_monotone; reflexivity.
Defined.

(** ** The start and end tests *)

Lemma is_quarter_start_value (y m x N : Z) :
  1 <= m <= 12 -> 1 <= N <= 4 ->
  FiscalDate.fiscal_year (datetime.mkdate y m x) <= datetime.MAXYEAR ->
  2 <= FiscalDate.fiscal_year (datetime.mkdate y m x) \/ 2 <= N ->
  1 <= y ->
  FiscalDate.is_quarter_start (datetime.mkdate y m x) (PyInt N)
  = Ok ((m =? first_month_of N) && (x =? 1)).
Proof.
  intros Hm HN Hmax Hnot1 Hy. unfold FiscalDate.is_quarter_start.
  rewrite fiscal_year_by_month in *.
  set (Y := if m <? 10 then y else y + 1) in *.
  assert (HY : datetime.MINYEAR <= Y <= datetime.MAXYEAR)
    by (unfold datetime.MINYEAR; subst Y; destruct (m <? 10); lia).
  rewrite (FiscalQuarter_init_Ok Y N HY HN). simpl bind.
  rewrite (FiscalQuarter_start_Ok Y N HY HN Hnot1). simpl. f_equal.
  unfold datetime.date_eqb. simpl.
  destruct (Z.eqb_spec m (first_month_of N)) as [Heq | Hne];
    [| rewrite andb_false_r; reflexivity].
  replace (y =? calendar_year_of Y N) with true; [reflexivity |].
  symmetry. apply Z.eqb_eq.
  subst Y. unfold calendar_year_of, first_month_of in *.
  assert (HN' : N = 1 \/ N = 2 \/ N = 3 \/ N = 4) by lia.
  destruct HN' as [-> | [-> | [-> | ->]]]; simpl in *; subst m; simpl; lia.
Qed.

Lemma is_quarter_end_value (y m x N : Z) :
  1 <= m <= 12 -> 1 <= N <= 4 ->
  FiscalDate.fiscal_year (datetime.mkdate y m x) <= datetime.MAXYEAR ->
  2 <= FiscalDate.fiscal_year (datetime.mkdate y m x) \/ 2 <= N ->
  1 <= y ->
  FiscalDate.is_quarter_end (datetime.mkdate y m x) (PyInt N)
  = Ok ((m =? last_month_of N) && (x =? last_day_of N)).
Proof.
  intros Hm HN Hmax Hnot1 Hy. unfold FiscalDate.is_quarter_end.
  rewrite fiscal_year_by_month in *.
  set (Y := if m <? 10 then y else y + 1) in *.
  assert (HY : datetime.MINYEAR <= Y <= datetime.MAXYEAR)
    by (unfold datetime.MINYEAR; subst Y; destruct (m <? 10); lia).
  rewrite (FiscalQuarter_init_Ok Y N HY HN). simpl bind.
  rewrite (FiscalQuarter_end_Ok Y N HY HN Hnot1). simpl. f_equal.
  unfold datetime.date_eqb. simpl.
  destruct (Z.eqb_spec m (last_month_of N)) as [Heq | Hne];
    [| rewrite andb_false_r; reflexivity].
  replace (y =? calendar_year_of Y N) with true; [reflexivity |].
  symmetry. apply Z.eqb_eq.
  subst Y. unfold calendar_year_of, last_month_of in *.
  assert (HN' : N = 1 \/ N = 2 \/ N = 3 \/ N = 4) by lia.
  destruct HN' as [-> | [-> | [-> | ->]]]; simpl in *; subst m; simpl; lia.
Qed.

(** On a date of a fiscal year from 2 to 9999, the eight tests return, and
    they are true exactly on these days: the starts on 1 October, 1
    January, 1 April and 1 July, the ends on 31 December, 31 March, 30 June
    and 30 September. *)
Theorem start_and_end_tests (d : FiscalDate.t) :
  datetime.valid d ->
  2 <= FiscalDate.fiscal_year d <= datetime.MAXYEAR ->
  let m := datetime.month d in
  let x := datetime.day d in
  FiscalDate.is_q1_start d = Ok ((m =? 10) && (x =? 1))
  /\ FiscalDate.is_q2_start d = Ok ((m =? 1) && (x =? 1))
  /\ FiscalDate.is_q3_start d = Ok ((m =? 4) && (x =? 1))
  /\ FiscalDate.is_q4_start d = Ok ((m =? 7) && (x =? 1))
  /\ FiscalDate.is_q1_end d = Ok ((m =? 12) && (x =? 31))
  /\ FiscalDate.is_q2_end d = Ok ((m =? 3) && (x =? 31))
  /\ FiscalDate.is_q3_end d = Ok ((m =? 6) && (x =? 30))
  /\ FiscalDate.is_q4_end d = Ok ((m =? 9) && (x =? 30)).
Proof.
  destruct d as [y m x]. intros Hv [Hlo Hhi].
  apply valid_day_bound in Hv. destruct Hv as [Hy [Hm _]].
  simpl datetime.month. simpl datetime.day. cbv zeta.
  unfold FiscalDate.is_q1_start, FiscalDate.is_q2_start,
    FiscalDate.is_q3_start, FiscalDate.is_q4_start,
    FiscalDate.is_q1_end, FiscalDate.is_q2_end,
    FiscalDate.is_q3_end, FiscalDate.is_q4_end.
  repeat split;
    first [ apply (is_quarter_start_value y m x); (lia || (left; lia))
          | apply (is_quarter_end_value y m x); (lia || (left; lia)) ].
Qed.

Lemma start_and_end_tests_witness :
  FiscalDate.is_q1_start (datetime.mkdate 2017 10 1) = Ok true
  /\ FiscalDate.is_q2_start (datetime.mkdate 2017 10 1) = Ok false
  /\ FiscalDate.is_q3_start (datetime.mkdate 2017 10 1) = Ok false
  /\ FiscalDate.is_q4_start (datetime.mkdate 2017 10 1) = Ok false
  /\ FiscalDate.is_q1_end (datetime.mkdate 2017 10 1) = Ok false
  /\ FiscalDate.is_q2_end (datetime.mkdate 2017 10 1) = Ok false
  /\ FiscalDate.is_q3_end (datetime.mkdate 2017 10 1) = Ok false
  /\ FiscalDate.is_q4_end (datetime.mkdate 2017 10 1) = Ok false.
Proof.
  apply (start_and_end_tests (datetime.mkdate 2017 10 1)).
  - reflexivity.
  - vm_compute. split; discriminate.
Defined.

(** A date that tests as the start or as the end of quarter [N] is in
    quarter [N]; and no date is both the start of a quarter and the end of
    one. *)
Theorem start_or_end_in_own_quarter (d : FiscalDate.t) (N M : Z) :
  datetime.valid d ->
  2 <= FiscalDate.fiscal_year d <= datetime.MAXYEAR ->
  1 <= N <= 4 -> 1 <= M <= 4 ->
  (FiscalDate.is_quarter_start d (PyInt N) = Ok true ->
   FiscalDate.quarter d = N)
  /\ (FiscalDate.is_quarter_end d (PyInt N) = Ok true ->
      FiscalDate.quarter d = N)
  /\ ~ (FiscalDate.is_quarter_start d (PyInt N) = Ok true
        /\ FiscalDate.is_quarter_end d (PyInt M) = Ok true).
Proof.
  destruct d as [y m x]. intros Hv [Hlo Hhi] HN HM.
  apply valid_day_bound in Hv. destruct Hv as [Hy [Hm _]].
  rewrite (is_quarter_start_value y m x N), (is_quarter_end_value y m x N),
    (is_quarter_end_value y m x M) by (lia || (left; lia)).
  rewrite (quarter_by_month y m x Hm).
  assert (HN' : N = 1 \/ N = 2 \/ N = 3 \/ N = 4) by lia.
  assert (HM' : M = 1 \/ M = 2 \/ M = 3 \/ M = 4) by lia.
  unfold first_month_of, last_month_of, last_day_of.
  repeat split.
  - intros H. inversion H as [Hb]. apply andb_true_iff in Hb.
    destruct Hb as [Hb _]. apply Z.eqb_eq in Hb.
    destruct HN' as [-> | [-> | [-> | ->]]]; simpl in Hb; subst m; reflexivity.
  - intros H. inversion H as [Hb]. apply andb_true_iff in Hb.
    destruct Hb as [Hb _]. apply Z.eqb_eq in Hb.
    destruct HN' as [-> | [-> | [-> | ->]]]; simpl in Hb; subst m; reflexivity.
  - intros [Hs He]. inversion Hs as [Hbs]. inversion He as [Hbe].
    apply andb_true_iff in Hbs, Hbe.
    destruct Hbs as [_ Hxs]. destruct Hbe as [_ Hxe].
    apply Z.eqb_eq in Hxs, Hxe.
    destruct HM' as [-> | [-> | [-> | ->]]]; simpl in Hxe; lia.
Qed.

Lemma start_or_end_in_own_quarter_witness :
  (FiscalDate.is_quarter_start (datetime.mkdate 2018 4 1) (PyInt 3) = Ok true ->
   FiscalDate.quarter (datetime.mkdate 2018 4 1) = 3)
  /\ (FiscalDate.is_quarter_end (datetime.mkdate 2018 4 1) (PyInt 3) = Ok true ->
      FiscalDate.quarter (datetime.mkdate 2018 4 1) = 3)
  /\ ~ (FiscalDate.is_quarter_start (datetime.mkdate 2018 4 1) (PyInt 3)
        = Ok true
        /\ FiscalDate.is_quarter_end (datetime.mkdate 2018 4 1) (PyInt 2)
           = Ok true).
Proof.
  apply (start_or_end_in_own_quarter (datetime.mkdate 2018 4 1) 3 2).
  - reflexivity.
  - vm_compute. split; discriminate.
  - lia.
  - lia.
Defined.

(** The tests raise [AssertionError], whatever the date, when the quarter
    asked for is not an [int] from 1 to 4; and on the dates of October to
    December 9999, whose fiscal year 10000 is no valid year, they raise
    it whatever the quarter: none of the eight tests returns there. *)
Theorem tests_raise_AssertionError (d : FiscalDate.t) (quarter : PyValue) :
  ((forall Q, quarter = PyInt Q -> Q < 1 \/ 4 < Q) ->
   FiscalDate.is_quarter_start d quarter = Raise AssertionError
   /\ FiscalDate.is_quarter_end d quarter = Raise AssertionError)
  /\ (datetime.year d = datetime.MAXYEAR -> datetime.month d >= START_MONTH ->
      FiscalDate.is_quarter_start d quarter = Raise AssertionError
      /\ FiscalDate.is_quarter_end d quarter = Raise AssertionError).
Proof.
  unfold FiscalDate.is_quarter_start, FiscalDate.is_quarter_end.
  assert (Hinit :
    (forall Q, quarter = PyInt Q -> Q < 1 \/ 4 < Q)
    \/ datetime.MAXYEAR < FiscalDate.fiscal_year d ->
    FiscalQuarter.__init__ (PyInt (FiscalDate.fiscal_year d)) quarter
    = Raise AssertionError).
  { intros Hbad.
    destruct (FiscalQuarter.__init__ (PyInt (FiscalDate.fiscal_year d))
                quarter) as [q | e] eqn:Hinit.
    - destruct (FiscalQuarter_init_shape _ _ q Hinit)
        as [Y [Q [HeqY [HeqQ [HY [HQ _]]]]]].
      inversion HeqY. subst Y. destruct Hbad as [Hbad | Hbad].
      + specialize (Hbad Q HeqQ). lia.
      + lia.
    - apply FiscalQuarter_init_raises in Hinit. subst e. reflexivity. }
  split.
  - intros Hbad. rewrite Hinit by (left; exact Hbad). split; reflexivity.
  - intros Hy Hm. rewrite Hinit; [split; reflexivity |]. right.
    destruct d as [y m x]. simpl in Hy, Hm. rewrite fiscal_year_by_month.
    unfold START_MONTH in Hm. destruct (Z.ltb_spec m 10); lia.
Qed.

Lemma tests_raise_AssertionError_witness :
  (FiscalDate.is_quarter_start (datetime.mkdate 2017 10 1) (PyInt 5)
   = Raise AssertionError
   /\ FiscalDate.is_quarter_end (datetime.mkdate 2017 10 1) (PyInt 5)
      = Raise AssertionError)
  /\ (FiscalDate.is_quarter_start (datetime.mkdate 9999 10 1) (PyInt 1)
      = Raise AssertionError
      /\ FiscalDate.is_quarter_end (datetime.mkdate 9999 10 1) (PyInt 1)
         = Raise AssertionError).
Proof.
  split.
  - apply (proj1 (tests_raise_AssertionError (datetime.mkdate 2017 10 1)
                    (PyInt 5))).
    intros Q HQ. inversion HQ. lia.
  - apply (proj2 (tests_raise_AssertionError (datetime.mkdate 9999 10 1)
                    (PyInt 1))).
    + reflexivity.
    + unfold START_MONTH. simpl. lia.
Defined.

(** On the dates of January to September of the year 1, whose fiscal year
    is 1, the tests for the first quarter raise [ValueError], that quarter
    lying in the calendar year 0; the six other tests return. *)
Theorem first_quarter_tests_in_year_1 (d : FiscalDate.t) :
  datetime.valid d ->
  datetime.year d = datetime.MINYEAR -> datetime.month d < START_MONTH ->
  FiscalDate.is_q1_start d = Raise ValueError
  /\ FiscalDate.is_q1_end d = Raise ValueError
  /\ returns (FiscalDate.is_q2_start d) /\ returns (FiscalDate.is_q3_start d)
  /\ returns (FiscalDate.is_q4_start d) /\ returns (FiscalDate.is_q2_end d)
  /\ returns (FiscalDate.is_q3_end d) /\ returns (FiscalDate.is_q4_end d).
Proof.
  destruct d as [y m x]. intros Hv Hy Hm. simpl in Hy, Hm. subst y.
  apply valid_day_bound in Hv. destruct Hv as [_ [Hm12 _]].
  unfold START_MONTH, datetime.MINYEAR in *.
  assert (Hfy : FiscalDate.fiscal_year (datetime.mkdate 1 m x) = 1)
    by (rewrite fiscal_year_by_month; destruct (Z.ltb_spec m 10); lia).
  unfold FiscalDate.is_q1_start, FiscalDate.is_q2_start,
    FiscalDate.is_q3_start, FiscalDate.is_q4_start,
    FiscalDate.is_q1_end, FiscalDate.is_q2_end,
    FiscalDate.is_q3_end, FiscalDate.is_q4_end.
  split; [unfold FiscalDate.is_quarter_start; rewrite Hfy; reflexivity |].
  split; [unfold FiscalDate.is_quarter_end; rewrite Hfy; reflexivity |].
  unfold returns.
  repeat split;
    first [ rewrite (is_quarter_start_value 1 m x)
              by (rewrite ?Hfy; unfold datetime.MAXYEAR; lia)
          | rewrite (is_quarter_end_value 1 m x)
              by (rewrite ?Hfy; unfold datetime.MAXYEAR; lia) ];
    eexists; reflexivity.
Qed.

Lemma first_quarter_tests_in_year_1_witness :
  FiscalDate.is_q1_start (datetime.mkdate 1 1 1) = Raise ValueError
  /\ FiscalDate.is_q1_end (datetime.mkdate 1 1 1) = Raise ValueError
  /\ returns (FiscalDate.is_q2_start (datetime.mkdate 1 1 1))
  /\ returns (FiscalDate.is_q3_start (datetime.mkdate 1 1 1))
  /\ returns (FiscalDate.is_q4_start (datetime.mkdate 1 1 1))
  /\ returns (FiscalDate.is_q2_end (datetime.mkdate 1 1 1))
  /\ returns (FiscalDate.is_q3_end (datetime.mkdate 1 1 1))
  /\ returns (FiscalDate.is_q4_end (datetime.mkdate 1 1 1)).
Proof.
  apply (first_quarter_tests_in_year_1 (datetime.mkdate 1 1 1)).
  - reflexivity.
  - reflexivity.
  - unfold START_MONTH. simpl. lia.
Defined.

(** ** From one quarter to the next *)

Lemma FiscalYear_new_Ok (Y : Z) :
  datetime.MINYEAR <= Y <= datetime.MAXYEAR ->
  FiscalYear.__new__ (PyInt Y) = Ok (mkFiscalYear Y).
Proof.
  intros HY. unfold FiscalYear.__new__. rewrite check_year_int.
  replace ((datetime.MINYEAR <=? Y) && (Y <=? datetime.MAXYEAR)) with true
    by (symmetry; apply andb_true_iff; split; apply Z.leb_le; lia).
  reflexivity.
Qed.

Lemma quarter_of_init (Y N : Z) :
  1 <= N <= 4 ->
  quarter_of (mkFiscalYear Y) N = FiscalQuarter.__init__ (PyInt Y) (PyInt N).
Proof.
  intros HN. assert (HN' : N = 1 \/ N = 2 \/ N = 3 \/ N = 4) by lia.
  destruct HN' as [-> | [-> | [-> | ->]]]; reflexivity.
Qed.

Lemma start_date_value (Y N : Z) :
  datetime.MINYEAR <= Y <= datetime.MAXYEAR -> 1 <= N <= 4 ->
  2 <= Y \/ 2 <= N ->
  start_date Y N
  = Ok (datetime.mkdate (calendar_year_of Y N) (first_month_of N) 1).
Proof.
  intros HY HN Hnot1. unfold start_date.
  rewrite (FiscalYear_new_Ok Y HY). simpl bind.
  rewrite (quarter_of_init Y N HN), (FiscalQuarter_init_Ok Y N HY HN).
  simpl bind. rewrite (FiscalQuarter_start_Ok Y N HY HN Hnot1). reflexivity.
Qed.

Lemma end_date_value (Y N : Z) :
  datetime.MINYEAR <= Y <= datetime.MAXYEAR -> 1 <= N <= 4 ->
  2 <= Y \/ 2 <= N ->
  end_date Y N
  = Ok (datetime.mkdate (calendar_year_of Y N) (last_month_of N)
                        (last_day_of N)).
Proof.
  intros HY HN Hnot1. unfold end_date.
  rewrite (FiscalYear_new_Ok Y HY). simpl bind.
  rewrite (quarter_of_init Y N HN), (FiscalQuarter_init_Ok Y N HY HN).
  simpl bind. rewrite (FiscalQuarter_end_Ok Y N HY HN Hnot1). reflexivity.
Qed.

Lemma follows_on_range (Y N : Z) :
  1 <= Y <= 9999 -> 1 <= N <= 3 -> 2 <= Y \/ 2 <= N -> follows_on Y N.
Proof.
  intros HY HN Hnot1. apply follows_onb_sound.
  assert (Hall := forall_from_spec _ _ _ follows_on_checked Y).
  rewrite Z2Nat.id in Hall by lia.
  specialize (Hall ltac:(lia)). cbv beta in Hall.
  assert (HallN := forall_from_spec _ _ _ Hall N ltac:(simpl; lia)).
  cbv beta in HallN.
  replace ((2 <=? Y) || (2 <=? N)) with true in HallN; [exact HallN |].
  symmetry. apply orb_true_iff.
  destruct Hnot1; [left | right]; apply Z.leb_le; lia.
Qed.

Lemma eve_in_previous_quarter_range (Y Q : Z) :
  1 <= Y <= 9999 -> 1 <= Q <= 4 -> 2 <= Y \/ 3 <= Q ->
  eve_in_previous_quarter Y Q.
Proof.
  intros HY HQ Hnot1. apply eve_in_previous_quarterb_sound.
  assert (Hall := forall_from_spec _ _ _ eve_checked Y).
  rewrite Z2Nat.id in Hall by lia.
  specialize (Hall ltac:(lia)). cbv beta in Hall.
  assert (HallQ := forall_from_spec _ _ _ Hall Q ltac:(simpl; lia)).
  cbv beta in HallQ.
  replace ((2 <=? Y) || (3 <=? Q)) with true in HallQ; [exact HallQ |].
  symmetry. apply orb_true_iff.
  destruct Hnot1; [left | right]; apply Z.leb_le; lia.
Qed.

(** Every year from 1 to 9999, by evaluation: the day after 30 September
    is 1 October. *)
Lemma september_30_checked :
  forall_from 1 (Z.to_nat 9999)
    (fun Y =>
       match datetime.add_days (datetime.mkdate Y 9 30) 1 with
       | Ok d => datetime.date_eqb d (datetime.mkdate Y 10 1)
       | Raise _ => false
       end) = true.
Proof. vm_compute. reflexivity. Qed.

Lemma day_after_september_30 (Y : Z) :
  1 <= Y <= 9999 ->
  datetime.add_days (datetime.mkdate Y 9 30) 1 = Ok (datetime.mkdate Y 10 1).
Proof.
  intros HY.
  assert (Hall := forall_from_spec _ _ _ september_30_checked Y).
  rewrite Z2Nat.id in Hall by lia.
  specialize (Hall ltac:(lia)). cbv beta in Hall.
  destruct (datetime.add_days (datetime.mkdate Y 9 30) 1) as [d |];
    [| discriminate Hall].
  apply date_eqb_eq in Hall. subst d. reflexivity.
Qed.

(** The day after the last day of a quarter is the first day of the month
    that follows, in the calendar year of the fiscal year. *)
Lemma day_after_quarter (Y Q : Z) :
  1 <= Y <= 9999 -> 1 <= Q <= 4 -> 2 <= Y \/ 2 <= Q ->
  datetime.add_days
    (datetime.mkdate (calendar_year_of Y Q) (last_month_of Q) (last_day_of Q))
    1
  = Ok (datetime.mkdate Y (first_month_of (Q mod 4 + 1)) 1).
Proof.
  intros HY HQ Hnot1.
  assert (HY' : datetime.MINYEAR <= Y <= datetime.MAXYEAR)
    by (unfold datetime.MINYEAR, datetime.MAXYEAR; lia).
  destruct (Z.eq_dec Q 4) as [-> | HQ4].
  - apply (day_after_september_30 Y HY).
  - destruct (follows_on_range Y Q HY ltac:(lia) Hnot1)
      as [e [s [He [Hs Hadd]]]].
    rewrite (end_date_value Y Q HY' HQ Hnot1) in He.
    rewrite (start_date_value Y (Q + 1) HY' ltac:(lia) ltac:(lia)) in Hs.
    inversion He. inversion Hs. subst e s. rewrite Hadd. f_equal.
    assert (HQ' : Q = 1 \/ Q = 2 \/ Q = 3) by lia.
    destruct HQ' as [-> | [-> | ->]]; reflexivity.
Qed.

Lemma as_FiscalDate_first_of_month (y m : Z) :
  1 <= y <= 9999 -> 1 <= m <= 12 ->
  as_FiscalDate (datetime.mkdate y m 1) = Ok (datetime.mkdate y m 1).
Proof.
  intros Hy Hm. unfold as_FiscalDate, FiscalDate_new, datetime.date_new. simpl.
  rewrite check_date_fields_Ok;
    [reflexivity | unfold datetime.MINYEAR, datetime.MAXYEAR; lia | lia |].
  pose proof (days_in_month_bounds y m Hm). lia.
Qed.

Lemma morrow_of_quarter_value (Y Q : Z) :
  1 <= Y <= 9999 -> 1 <= Q <= 4 -> 2 <= Y \/ 2 <= Q ->
  morrow_of_quarter Y Q
  = Ok (datetime.mkdate Y (first_month_of (Q mod 4 + 1)) 1).
Proof.
  intros HY HQ Hnot1.
  assert (HY' : datetime.MINYEAR <= Y <= datetime.MAXYEAR)
    by (unfold datetime.MINYEAR, datetime.MAXYEAR; lia).
  unfold morrow_of_quarter.
  rewrite (FiscalQuarter_init_Ok Y Q HY' HQ). simpl bind.
  rewrite (FiscalQuarter_end_Ok Y Q HY' HQ Hnot1). simpl bind.
  simpl datetime.date_of. rewrite (day_after_quarter Y Q HY HQ Hnot1).
  simpl bind. apply as_FiscalDate_first_of_month; [exact HY |].
  assert (HQ' : Q = 1 \/ Q = 2 \/ Q = 3 \/ Q = 4) by lia.
  destruct HQ' as [-> | [-> | [-> | ->]]]; vm_compute; split; discriminate.
Qed.

(** [prev_quarter] and [prev_quarter_fiscal_year] name the quarter of the
    day before the quarter of the date starts.  This holds wherever that
    day exists and the fiscal year of the date is valid: for every date
    from 0001-04-01 to 9999-09-30. *)
Theorem previous_quarter_of_date (d : FiscalDate.t) :
  datetime.valid d ->
  FiscalDate.fiscal_year d <= datetime.MAXYEAR ->
  2 <= FiscalDate.fiscal_year d \/ 3 <= FiscalDate.quarter d ->
  exists e,
    eve_of_quarter (FiscalDate.fiscal_year d) (FiscalDate.quarter d) = Ok e
    /\ FiscalDate.quarter e = FiscalDate.prev_quarter d
    /\ FiscalDate.fiscal_year e = FiscalDate.prev_quarter_fiscal_year d.
Proof.
  destruct d as [y m x]. intros Hv Hmax Hnot1.
  apply valid_day_bound in Hv. destruct Hv as [Hy [Hm _]].
  unfold FiscalDate.prev_quarter, FiscalDate.prev_quarter_fiscal_year.
  assert (HQ : 1 <= FiscalDate.quarter (datetime.mkdate y m x) <= 4)
    by (rewrite (quarter_by_month y m x Hm);
        destruct (m <? 4), (m <? 7), (m <? 10); lia).
  assert (HY : 1 <= FiscalDate.fiscal_year (datetime.mkdate y m x) <= 9999)
    by (unfold datetime.MAXYEAR in Hmax; rewrite fiscal_year_by_month in *;
        destruct (m <? 10); lia).
  set (Q := FiscalDate.quarter (datetime.mkdate y m x)) in *.
  set (Y := FiscalDate.fiscal_year (datetime.mkdate y m x)) in *.
  destruct (eve_in_previous_quarter_range Y Q HY HQ Hnot1)
    as [e [He [Hq Hfy]]].
  exists e. split; [exact He |]. rewrite Hq, Hfy. split; [| reflexivity].
  destruct (Z.eqb_spec Q 1) as [-> | HQ1]; [reflexivity |].
  cbv zeta. destruct (Z.eqb_spec (Q - 1) 0); [lia | reflexivity].
Qed.

Lemma previous_quarter_of_date_witness :
  exists e,
    eve_of_quarter (FiscalDate.fiscal_year (datetime.mkdate 2017 11 15))
                   (FiscalDate.quarter (datetime.mkdate 2017 11 15)) = Ok e
    /\ FiscalDate.quarter e
       = FiscalDate.prev_quarter (datetime.mkdate 2017 11 15)
    /\ FiscalDate.fiscal_year e
       = FiscalDate.prev_quarter_fiscal_year (datetime.mkdate 2017 11 15).
Proof.
  apply (previous_quarter_of_date (datetime.mkdate 2017 11 15)).
  - reflexivity.
  - vm_compute. discriminate.
  - left. vm_compute. discriminate.
Defined.

(** [next_quarter] and [next_quarter_fiscal_year] name the quarter of the
    day after the quarter of the date ends, for every date whose fiscal
    year is valid: every date up to 9999-09-30.  After the last quarter of
    fiscal year 9999 the fiscal year named is 10000. *)
Theorem next_quarter_of_date (d : FiscalDate.t) :
  datetime.valid d ->
  FiscalDate.fiscal_year d <= datetime.MAXYEAR ->
  exists e,
    morrow_of_quarter (FiscalDate.fiscal_year d) (FiscalDate.quarter d) = Ok e
    /\ FiscalDate.quarter e = FiscalDate.next_quarter d
    /\ FiscalDate.fiscal_year e = FiscalDate.next_quarter_fiscal_year d.
Proof.
  destruct d as [y m x]. intros Hv Hmax.
  apply valid_day_bound in Hv. destruct Hv as [Hy [Hm _]].
  unfold FiscalDate.next_quarter, FiscalDate.next_quarter_fiscal_year.
  unfold datetime.MAXYEAR in Hmax.
  rewrite fiscal_year_by_month in *. rewrite (quarter_by_month y m x Hm).
  set (Y := if m <? 10 then y else y + 1) in *.
  set (Q := if m <? 4 then 2 else if m <? 7 then 3 else if m <? 10 then 4 else 1).
  assert (HY : 1 <= Y <= 9999) by (subst Y; destruct (m <? 10); lia).
  assert (HQ : 1 <= Q <= 4)
    by (subst Q; destruct (m <? 4), (m <? 7), (m <? 10); lia).
  assert (Hnot1 : 2 <= Y \/ 2 <= Q)
    by (subst Y Q; destruct (Z.ltb_spec m 4), (Z.ltb_spec m 7),
          (Z.ltb_spec m 10); lia).
  eexists. split; [apply (morrow_of_quarter_value Y Q HY HQ Hnot1) |].
  rewrite fiscal_year_by_month.
  assert (HQ' : Q = 1 \/ Q = 2 \/ Q = 3 \/ Q = 4) by lia.
  destruct HQ' as [-> | [-> | [-> | ->]]]; split; reflexivity.
Qed.

Lemma next_quarter_of_date_witness :
  exists e,
    morrow_of_quarter (FiscalDate.fiscal_year (datetime.mkdate 9999 9 30))
                      (FiscalDate.quarter (datetime.mkdate 9999 9 30)) = Ok e
    /\ FiscalDate.quarter e
       = FiscalDate.next_quarter (datetime.mkdate 9999 9 30)
    /\ FiscalDate.fiscal_year e
       = FiscalDate.next_quarter_fiscal_year (datetime.mkdate 9999 9 30).
Proof.
  apply (next_quarter_of_date (datetime.mkdate 9999 9 30)).
  - reflexivity.
  - vm_compute. discriminate.
Defined.

(** Consecutive fiscal years leave no gap: the next fiscal year starts on
    the day after a fiscal year ends. *)
Theorem fiscal_years_abut (v v' : PyValue) (fy fy' : FiscalYear) :
  FiscalYear.__new__ v = Ok fy ->
  FiscalYear.__new__ v' = Ok fy' ->
  FiscalYear.fiscal_year fy' = FiscalYear.fiscal_year fy + 1 ->
  exists e s,
    FiscalYear.end_ fy = Ok e /\ FiscalYear.start fy' = Ok s
    /\ datetime.add_days (datetime.date_of e) 1 = Ok (datetime.date_of s).
Proof.
  destruct v as [n | ? | ? | ?]; try discriminate.
  destruct v' as [n' | ? | ? | ?]; try discriminate.
  intros H H' Hnext.
  apply FiscalYear_new_int in H, H'.
  destruct H as [Hn ->]. destruct H' as [Hn' ->]. simpl in Hnext. subst n'.
  unfold datetime.MINYEAR in Hn.
  eexists. eexists.
  split; [apply FiscalYear_end_value; unfold datetime.MINYEAR; lia |].
  split; [apply FiscalYear_start_value; lia |].
  simpl. replace (n + 1 - 1) with n by lia.
  apply day_after_september_30. unfold datetime.MAXYEAR in *. lia.
Qed.

Lemma fiscal_years_abut_witness :
  exists e s,
    FiscalYear.end_ (mkFiscalYear 2017) = Ok e
    /\ FiscalYear.start (mkFiscalYear 2018) = Ok s
    /\ datetime.add_days (datetime.date_of e) 1 = Ok (datetime.date_of s).
Proof.
  apply (fiscal_years_abut (PyInt 2017) (PyInt 2018)); reflexivity.
Defined.

(** ** The length of a fiscal year *)

Lemma days_before_year_succ (y : Z) :
  datetime._days_before_year (y + 1)
  = datetime._days_before_year y + 365 + Z.b2z (datetime._is_leap y).
Proof.
  unfold datetime._days_before_year, datetime._is_leap. cbv zeta.
  replace (y + 1 - 1) with (y - 1 + 1) by lia.
  destruct (Z.eqb_spec (y mod 4) 0) as [H4 | H4];
    destruct (Z.eqb_spec (y mod 100) 0) as [H100 | H100];
    destruct (Z.eqb_spec (y mod 400) 0) as [H400 | H400];
    simpl Z.b2z; Z.div_mod_to_equations; lia.
Qed.

(** A fiscal year has 365 days, or 366 when the calendar year of its
    number is a leap year (the February of that calendar year is in it).
    Fiscal year 1, which has no start, is left out. *)
Theorem fiscal_year_length (v : PyValue) (fy : FiscalYear) :
  FiscalYear.__new__ v = Ok fy ->
  2 <= FiscalYear.fiscal_year fy ->
  days_in_fiscal_year fy
  = Ok (if calendar.isleap (FiscalYear.fiscal_year fy) then 366 else 365).
Proof.
  destruct v as [n | ? | ? | ?]; try discriminate.
  intros H Hn2. apply FiscalYear_new_int in H. destruct H as [Hn ->].
  simpl in Hn2 |- *. unfold days_in_fiscal_year.
  rewrite (FiscalYear_start_value n) by lia.
  rewrite (FiscalYear_end_value n) by exact Hn.
  simpl bind. f_equal.
  unfold days_between, datetime.toordinal, datetime._ymd2ord,
    datetime._days_before_month.
  cbn [datetime.date_of datetime.dt_date datetime.year datetime.month
       datetime.day].
  change (9 >? 2) with true. change (10 >? 2) with true. cbn [andb].
  change (calendar.isleap n) with (datetime._is_leap n).
  pose proof (days_before_year_succ (n - 1)) as Hsucc.
  replace (n - 1 + 1) with n in Hsucc by lia.
  change (datetime.index datetime._DAYS_BEFORE_MONTH 9) with 243.
  change (datetime.index datetime._DAYS_BEFORE_MONTH 10) with 273.
  destruct (datetime._is_leap n); destruct (datetime._is_leap (n - 1));
    simpl Z.b2z in *; lia.
Qed.

Lemma fiscal_year_length_witness :
  days_in_fiscal_year (mkFiscalYear 2024)
  = Ok (if calendar.isleap (FiscalYear.fiscal_year (mkFiscalYear 2024))
        then 366 else 365).
Proof.
  apply (fiscal_year_length (PyInt 2024) (mkFiscalYear 2024)).
  - reflexivity.
  - simpl. lia.
Defined.

(** ** The order of fiscal years *)

(** The six comparisons of two fiscal years agree with each other as the
    comparisons of a total order do: [a < b] and [b > a] return the same,
    and so do [a <= b] and [b >= a]; [a != b] is the negation of [a == b];
    exactly one of [a < b], [a == b], [a > b] is true; [a == b] is true
    exactly when the two objects hold the same year; and [<=] is
    transitive. *)
Theorem FiscalYear_total_order (a b c : FiscalYear) :
  FiscalYear.__lt__ a (PyFiscalYear b) = FiscalYear.__gt__ b (PyFiscalYear a)
  /\ FiscalYear.__le__ a (PyFiscalYear b)
     = FiscalYear.__ge__ b (PyFiscalYear a)
  /\ FiscalYear.__eq__ a (PyFiscalYear b)
     = FiscalYear.__eq__ b (PyFiscalYear a)
  /\ (FiscalYear.__ne__ a (PyFiscalYear b) = Ok (PyBool true)
      <-> FiscalYear.__eq__ a (PyFiscalYear b) = Ok (PyBool false))
  /\ (FiscalYear.__eq__ a (PyFiscalYear b) = Ok (PyBool true) <-> a = b)
  /\ ((FiscalYear.__lt__ a (PyFiscalYear b) = Ok (PyBool true)
       /\ FiscalYear.__eq__ a (PyFiscalYear b) = Ok (PyBool false)
       /\ FiscalYear.__gt__ a (PyFiscalYear b) = Ok (PyBool false))
      \/ (FiscalYear.__lt__ a (PyFiscalYear b) = Ok (PyBool false)
          /\ FiscalYear.__eq__ a (PyFiscalYear b) = Ok (PyBool true)
          /\ FiscalYear.__gt__ a (PyFiscalYear b) = Ok (PyBool false))
      \/ (FiscalYear.__lt__ a (PyFiscalYear b) = Ok (PyBool false)
          /\ FiscalYear.__eq__ a (PyFiscalYear b) = Ok (PyBool false)
          /\ FiscalYear.__gt__ a (PyFiscalYear b) = Ok (PyBool true)))
  /\ (FiscalYear.__le__ a (PyFiscalYear b) = Ok (PyBool true) ->
      FiscalYear.__le__ b (PyFiscalYear c) = Ok (PyBool true) ->
      FiscalYear.__le__ a (PyFiscalYear c) = Ok (PyBool true)).
Proof.
  destruct a as [x], b as [y], c as [z]. simpl.
  split; [rewrite Z.gtb_ltb; reflexivity |].
  split; [rewrite Z.geb_leb; reflexivity |].
  split; [rewrite Z.eqb_sym; reflexivity |].
  split; [destruct (x =? y); simpl; split; intros H;
          try reflexivity; discriminate H |].
  split.
  { split; intros H.
    - injection H as Hb. apply Z.eqb_eq in Hb. subst. reflexivity.
    - inversion H. rewrite Z.eqb_refl. reflexivity. }
  split.
  { rewrite Z.gtb_ltb.
    destruct (Z.ltb_spec x y), (Z.eqb_spec x y), (Z.ltb_spec y x);
      try lia; auto. }
  intros Hab Hbc. injection Hab as H1. injection Hbc as H2.
  apply Z.leb_le in H1, H2.
  replace (x <=? z) with true by (symmetry; apply Z.leb_le; lia).
  reflexivity.
Qed.

Lemma FiscalYear_total_order_witness :
  FiscalYear.__le__ (mkFiscalYear 2016) (PyFiscalYear (mkFiscalYear 2018))
  = Ok (PyBool true).
Proof.
  apply (proj2 (proj2 (proj2 (proj2 (proj2 (proj2
           (FiscalYear_total_order (mkFiscalYear 2016) (mkFiscalYear 2017)
              (mkFiscalYear 2018)))))))); reflexivity.
Defined.

(** ** The formal string of a fiscal year *)

(** Every year from 1 to 9999, by evaluation: its numeral is made of
    digits and reads back as the year. *)
Lemma format_d_checked :
  forall_from 1 (Z.to_nat 9999)
    (fun n => isdigit (format_d n) && (int_of_digits (format_d n) =? n))
  = true.
Proof. vm_compute. reflexivity. Qed.

(** [repr] of a fiscal year that the constructor returned is the text
    [fiscalyear.FiscalYear(] followed by a numeral and [)], and the
    constructor applied to the number that the numeral reads as gives the
    fiscal year back. *)
Theorem repr_reads_back (v : PyValue) (fy : FiscalYear) :
  FiscalYear.__new__ v = Ok fy ->
  exists digits,
    FiscalYear.__repr__ fy
    = ("fiscalyear.FiscalYear(" ++ digits ++ ")")%string
    /\ isdigit digits = true
    /\ FiscalYear.__new__ (PyInt (int_of_digits digits)) = Ok fy.
Proof.
  destruct v as [n | ? | ? | ?]; try discriminate.
  intros H. pose proof (FiscalYear_new_int n fy H) as [Hn ->].
  unfold datetime.MINYEAR, datetime.MAXYEAR in Hn.
  assert (Hall := forall_from_spec _ _ _ format_d_checked n).
  rewrite Z2Nat.id in Hall by lia.
  specialize (Hall ltac:(lia)). cbv beta in Hall.
  apply andb_true_iff in Hall. destruct Hall as [Hdigits Hread].
  apply Z.eqb_eq in Hread.
  exists (format_d n). split; [reflexivity |]. split; [exact Hdigits |].
  rewrite Hread. exact H.
Qed.

Lemma repr_reads_back_witness :
  exists digits,
    FiscalYear.__repr__ (mkFiscalYear 2017)
    = ("fiscalyear.FiscalYear(" ++ digits ++ ")")%string
    /\ isdigit digits = true
    /\ FiscalYear.__new__ (PyInt (int_of_digits digits))
       = Ok (mkFiscalYear 2017).
Proof.
  apply (repr_reads_back (PyInt 2017) (mkFiscalYear 2017)). reflexivity.
Defined.
